(** * openapi-validator: hosting adapters and validation gate

    A shallow embedding of the AWS Lambda adapter ([toProxyHandler]), the
    Express adapter ([addRoute]) and of the validation gate they serve,
    with the properties stated about them.

    JavaScript strings are modelled as [string] (a sequence of code units),
    plain objects used as maps as [gmap], exceptions and rejected promises
    by the [Outcome] monad: an [async] function settles to [Returned] or to
    [Thrown], and [await] is the monad's bind. *)

From Stdlib Require Import ZArith Ascii String DecimalString List Lia.
From stdpp Require Import base option list strings gmap.

Local Open Scope string_scope.
Local Open Scope Z_scope.
Local Set Warnings "-register-all".

(** ** JavaScript values, exceptions and settled computations *)

Module Js.

(** Plain data as [JSON.parse] produces it. *)
Inductive Json : Type :=
| JNull
| JBool (b : bool)
| JNumber (n : Z)
| JString (s : string)
| JArray (items : list Json)
| JObject (members : list (string * Json)).

(** One field-level finding of the schema layer. *)
Record Issue : Type := mkIssue {
  issue_path : list string;
  issue_message : string
}.

(** The error taxonomy of the validator; [Status n] is the generic
    constructor for any other status. *)
Inductive ErrorKind : Type :=
| NotFound
| UnsupportedMediaType
| UnprocessableEntity
| Internal
| Status (code : Z).

Definition kind_status (k : ErrorKind) : Z :=
  match k with
  | NotFound => 404
  | UnsupportedMediaType => 415
  | UnprocessableEntity => 422
  | Internal => 500
  | Status code => code
  end.

Record ValidationError : Type := mkValidationError {
  kind : ErrorKind;
  message : string;
  issues : option (list Issue)
}.

Definition status (e : ValidationError) : Z := kind_status (kind e).

(** Whatever a [throw] statement or a rejected promise can carry. *)
Inductive Exception : Type :=
| TypeError (msg : string)
| SyntaxError (msg : string)
| Error (msg : string)
| Validation (e : ValidationError)
| Value (v : Json).

Inductive Outcome (A : Type) : Type :=
| Returned (a : A)
| Thrown (e : Exception).
Arguments Returned {A} a.
Arguments Thrown {A} e.

#[export] Instance outcome_ret : MRet Outcome := fun A a => Returned a.
#[export] Instance outcome_bind : MBind Outcome := fun A B f c =>
  match c with
  | Returned a => f a
  | Thrown e => Thrown e
  end.
#[export] Instance outcome_fmap : FMap Outcome := fun A B f c =>
  match c with
  | Returned a => Returned (f a)
  | Thrown e => Thrown e
  end.

(** [try { body } catch (error) { handler(error) }] *)
Definition tryCatch {A : Type} (body : Outcome A) (handler : Exception -> Outcome A)
  : Outcome A :=
  match body with
  | Returned a => Returned a
  | Thrown e => handler e
  end.

End Js.
Import Js.

(** ** Code-unit helpers *)

Module Text.

Definition is_upper (c : ascii) : bool :=
  (65 <=? nat_of_ascii c)%nat && (nat_of_ascii c <=? 90)%nat.

Definition is_lower (c : ascii) : bool :=
  (97 <=? nat_of_ascii c)%nat && (nat_of_ascii c <=? 122)%nat.

Definition is_digit (c : ascii) : bool :=
  (48 <=? nat_of_ascii c)%nat && (nat_of_ascii c <=? 57)%nat.

Definition lower (c : ascii) : ascii :=
  if is_upper c then ascii_of_nat (nat_of_ascii c + 32) else c.

Definition upper (c : ascii) : ascii :=
  if is_lower c then ascii_of_nat (nat_of_ascii c - 32) else c.

Fixpoint map (f : ascii -> ascii) (s : string) : string :=
  match s with
  | EmptyString => EmptyString
  | String c s' => String (f c) (map f s')
  end.

(** [s.toLowerCase()] and [s.toUpperCase()] on ASCII text. *)
Definition toLowerCase (s : string) : string := map lower s.
Definition toUpperCase (s : string) : string := map upper s.

Fixpoint forallb (p : ascii -> bool) (s : string) : bool :=
  match s with
  | EmptyString => true
  | String c s' => p c && forallb p s'
  end.

Fixpoint contains (c : ascii) (s : string) : bool :=
  match s with
  | EmptyString => false
  | String d s' => Ascii.eqb c d || contains c s'
  end.

(** The text before the first [c], and the text after it when there is one. *)
Fixpoint cut (c : ascii) (s : string) : string * option string :=
  match s with
  | EmptyString => (EmptyString, None)
  | String d s' =>
      if Ascii.eqb c d then (EmptyString, Some s')
      else let '(before, after) := cut c s' in (String d before, after)
  end.

Fixpoint dropWhile (p : ascii -> bool) (s : string) : string :=
  match s with
  | EmptyString => EmptyString
  | String c s' => if p c then dropWhile p s' else s
  end.

Definition rev (s : string) : string :=
  string_of_list_ascii (List.rev (list_ascii_of_string s)).

Definition trim (p : ascii -> bool) (s : string) : string :=
  rev (dropWhile p (rev (dropWhile p s))).

Fixpoint join (sep : string) (parts : list string) : string :=
  match parts with
  | [] => EmptyString
  | [p] => p
  | p :: rest => p ++ sep ++ join sep rest
  end.

Definition ofZ (n : Z) : string := NilZero.string_of_int (Z.to_int n).

End Text.

(** ** The Fetch platform the adapters are written against

    [Headers], [Request] and [Response] follow the Fetch standard where the
    adapters depend on it: header names are HTTP tokens and are compared
    without case; a body can be read once; a [GET] or [HEAD] request takes
    no body.  URL parsing is left to the host through [UrlApi]. *)

Module Fetch.

(** The operations on [URL] objects the adapters call. *)
Class UrlApi : Type := {
  URL : Type;
  (** [new URL(input, base)] *)
  URL_new : string -> string -> Outcome URL;
  (** [url.port = value] *)
  URL_set_port : URL -> string -> URL;
  (** [url.search = value] *)
  URL_set_search : URL -> string -> URL;
  (** the pairs of [url.searchParams], in order *)
  URL_searchParams : URL -> list (string * string);
  (** [url.searchParams.append(name, value)] *)
  URL_searchParams_append : URL -> string -> string -> URL;
  (** whether the URL includes credentials: a user name or a password *)
  URL_credentials : URL -> bool
}.

(** The host's [JSON] object. *)
Class JsonApi : Type := {
  JSON_parse : string -> Outcome Json;
  JSON_stringify : Json -> string
}.

Definition is_token_char (c : ascii) : bool :=
  Text.is_digit c || Text.is_upper c || Text.is_lower c
  || Text.contains c "!#$%&'*+-.^_`|~".

Definition is_token (s : string) : bool :=
  negb (String.eqb s "") && Text.forallb is_token_char s.

Definition is_http_whitespace (c : ascii) : bool :=
  let n := nat_of_ascii c in
  Nat.eqb n 9 || Nat.eqb n 10 || Nat.eqb n 13 || Nat.eqb n 32.

Definition is_header_value_char (c : ascii) : bool :=
  let n := nat_of_ascii c in
  negb (Nat.eqb n 0 || Nat.eqb n 10 || Nat.eqb n 13).

(** A [Headers] object is its header list. *)
Definition Headers : Type := list (string * string).

(** [headers.append(name, value)] *)
Definition Headers_append (h : Headers) (name value : string) : Outcome Headers :=
  let value := Text.trim is_http_whitespace value in
  if is_token name && Text.forallb is_header_value_char value
  then Returned (app h [(name, value)])
  else Thrown (TypeError "invalid header").

(** [new Headers(init)] for a record [init], filled in key order. *)
Definition Headers_new (init : list (string * string)) : Outcome Headers :=
  foldl (fun acc kv => h ← acc; Headers_append h (fst kv) (snd kv)) (Returned []) init.

Definition same_name (a b : string) : bool :=
  String.eqb (Text.toLowerCase a) (Text.toLowerCase b).

Definition Headers_values (h : Headers) (name : string) : list string :=
  List.map snd (List.filter (fun kv => same_name (fst kv) name) h).

(** [headers.get(name)]: the values under [name] joined, or [null]. *)
Definition Headers_get (h : Headers) (name : string) : option string :=
  match Headers_values h name with
  | [] => None
  | values => Some (Text.join ", " values)
  end.

Definition Headers_has (h : Headers) (name : string) : bool :=
  existsb (fun kv => same_name (fst kv) name) h.

Fixpoint insert_name (name : string) (names : list string) : list string :=
  match names with
  | [] => [name]
  | n :: rest =>
      match String.compare name n with
      | Lt => name :: names
      | Eq => names
      | Gt => n :: insert_name name rest
      end
  end.

Definition sorted_names (h : Headers) : list string :=
  foldr insert_name [] (List.map (fun kv => Text.toLowerCase (fst kv)) h).

(** [headers.entries()]: lower-cased names in ascending order, the values
    of one name combined, [set-cookie] values kept apart. *)
Definition Headers_entries (h : Headers) : list (string * string) :=
  flat_map
    (fun name =>
       if String.eqb name "set-cookie"
       then List.map (fun v => (name, v)) (Headers_values h name)
       else match Headers_get h name with
            | Some v => [(name, v)]
            | None => []
            end)
    (sorted_names h).

(** [Object.fromEntries(entries)]: a later entry replaces an earlier one
    with the same key. *)
Definition fromEntries (entries : list (string * string)) : gmap string string :=
  foldl (fun obj kv => <[fst kv := snd kv]> obj) ∅ entries.

(** What a body is given as: text, or a stream of the given content. *)
Inductive BodyInit : Type :=
| BodyText (text : string)
| BodyStream (content : string).

Definition body_content (b : BodyInit) : string :=
  match b with BodyText s => s | BodyStream s => s end.

(** A text body brings its own content type when none is declared. *)
Definition with_body_type (b : option BodyInit) (h : Headers) : Headers :=
  match b with
  | Some (BodyText _) =>
      if Headers_has h "content-type" then h
      else app h [("content-type", "text/plain;charset=UTF-8")]
  | _ => h
  end.

(** Where the body stream of a response stands. *)
Inductive BodyState : Type :=
| Unread
| Disturbed
| Consumed
| Locked
| Failing (reason : Exception).

(** A response: [response_body] is [None] for a null body, and otherwise
    the content its stream has to deliver.  The stream is [Unread], or
    [Disturbed] (read in part, through a reader since released), or
    [Consumed] (read to the end by [text()] or the like, which leaves it
    locked), or [Locked] (a reader holds it), or [Failing] (reading it
    fails with the given reason). *)
Record Response : Type := mkResponseWith {
  response_status : Z;
  response_headers : Headers;
  response_body : option string;
  response_state : BodyState
}.

(** A response that is unread, or was read to the end. *)
Definition mkResponse (status : Z) (headers : Headers) (body : option string)
    (used : bool) : Response :=
  mkResponseWith status headers body (if used then Consumed else Unread).

(** [response.bodyUsed] *)
Definition response_bodyUsed (r : Response) : bool :=
  match response_body r, response_state r with
  | Some _, (Disturbed | Consumed) => true
  | _, _ => false
  end.

(** Whether the body can be read to the end: it is null, or its stream is
    unread and does not fail. *)
Definition bodyReadable (r : Response) : bool :=
  match response_body r, response_state r with
  | None, _ => true
  | Some _, Unread => true
  | Some _, _ => false
  end.

(** [new Response(body, { status, headers })] *)
Definition Response_new (body : option BodyInit) (status : Z) (headers : Headers)
  : Response :=
  {| response_status := status;
     response_headers := with_body_type body headers;
     response_body := body_content <$> body;
     response_state := Unread |}.

(** [await response.text()]: the whole body, once.  A null body reads as
    the empty text; a stream that was read from or is locked is refused,
    a failing one rejects with its reason.  The read marks the response
    as used; no caller below reads the same response again. *)
Definition Response_text (r : Response) : Outcome string :=
  match response_body r with
  | None => Returned EmptyString
  | Some text =>
      match response_state r with
      | Unread => Returned text
      | Failing reason => Thrown reason
      | Disturbed | Consumed | Locked => Thrown (TypeError "Body is unusable")
      end
  end.

Record RequestInit : Type := mkRequestInit {
  init_method : string;
  init_headers : Headers;
  init_body : option BodyInit
}.

Record Request `{UrlApi} : Type := mkRequest {
  request_url : URL;
  request_method : string;
  request_headers : Headers;
  request_body : option string
}.

Definition normalize_method (m : string) : string :=
  let u := Text.toUpperCase m in
  if existsb (String.eqb u) ["DELETE"; "GET"; "HEAD"; "OPTIONS"; "POST"; "PUT"]
  then u else m.

Definition forbidden_method (m : string) : bool :=
  existsb (String.eqb (Text.toUpperCase m)) ["CONNECT"; "TRACE"; "TRACK"].

Definition bodyless_method (m : string) : bool :=
  String.eqb m "GET" || String.eqb m "HEAD".

(** [new Request(url, init)] *)
Definition Request_new `{UrlApi} (url : URL) (init : RequestInit) : Outcome Request :=
  if URL_credentials url
  then Thrown (TypeError "Request cannot be constructed from a URL that includes credentials")
  else if negb (is_token (init_method init)) || forbidden_method (init_method init)
  then Thrown (TypeError "invalid method")
  else
    let method := normalize_method (init_method init) in
    match init_body init with
    | Some b =>
        if bodyless_method method
        then Thrown (TypeError "Request with GET/HEAD method cannot have body")
        else Returned {| request_url := url;
                         request_method := method;
                         request_headers := with_body_type (Some b) (init_headers init);
                         request_body := Some (body_content b) |}
    | None =>
        Returned {| request_url := url;
                    request_method := method;
                    request_headers := init_headers init;
                    request_body := None |}
    end.

(** A handler on Fetch requests; its promise settles to a response or is
    rejected with any value. *)
Definition FetchHandler `{UrlApi} : Type := Request -> Outcome Response.

End Fetch.
Import Fetch.

(** ** The package index: validation gate and error model

    [index.ts] is imported by both adapters ([toHttpError], [errorHandler],
    [toJsonErrorResponse], [Validator]) and is described by the
    specification, sections 3, 4.1, 4.2 and 4.3. *)

Module Index.

(** Modelled from the spec: the outcome of the Schema Capability, "a
    successful parse (typed value) or a structured failure (ordered list of
    {path, message} issues)". *)
Inductive Checked (T : Type) : Type :=
| Valid (value : T)
| Invalid (found : list Issue).
Arguments Valid {T} value.
Arguments Invalid {T} found.

(** Modelled from the spec: the Schema Capability, opaque and swappable:
    "validate(schema, value) -> Result<Typed, Issues>". *)
Class SchemaCapability : Type := {
  Schema : Type;
  Typed : Type;
  validate : Schema -> Json -> Checked Typed
}.

Section Gate.
Context `{UrlApi} `{JsonApi} `{SchemaCapability}.

(** Modelled from the spec: a response definition of the Route Contract, a
    description and the content-type-to-schema mapping (empty when the
    definition declares no content schema). *)
Record ResponseDefinition : Type := mkResponseDefinition {
  description : string;
  content : gmap string Schema
}.

(** Modelled from the spec: the Route Contract of section 3.  [responses]
    is keyed by integer status code, the default marker is kept apart. *)
Record RouteContract : Type := mkRouteContract {
  method : string;
  pathTemplate : string;
  paramsSchema : option Schema;
  querySchema : option Schema;
  requestBody : gmap string Schema;
  responses : gmap Z ResponseDefinition;
  defaultResponse : option ResponseDefinition
}.

(** Modelled from the spec: "normalize by stripping parameters (e.g.
    charset)" from a content-type header; an absent header reads as the
    empty content type. *)
Definition normalizeContentType (header : option string) : string :=
  Text.trim is_http_whitespace (fst (Text.cut ";" (default "" header))).

(** Modelled from the spec: the "application/json-family" of content
    types, [application/json] and the structured-syntax suffix [+json]. *)
Definition jsonFamily (contentType : string) : bool :=
  String.eqb contentType "application/json"
  || String.eqb (Text.rev (substring 0 5 (Text.rev contentType))) "+json".

Definition declaresNoSchema (schemas : gmap string Schema) : bool :=
  Nat.eqb (size schemas) 0.

Definition raise {A : Type} (k : ErrorKind) (msg : string) (found : option (list Issue))
  : Outcome A :=
  Thrown (Validation (mkValidationError k msg found)).

(** What [validateBody] hands back: the raw body, or the typed value. *)
Inductive ParsedBody : Type :=
| RawBody (bytes : option string)
| TypedBody (value : Typed).

Definition acceptedTypes (schemas : gmap string Schema) : string :=
  Text.join ", " (fst <$> map_to_list schemas).

(** Modelled from the spec: [validateBody], section 4.1, steps 1 to 5.  A
    JSON parse failure is reported as [UnsupportedMediaType], the first of
    the two kinds the specification allows. *)
Definition validateBody (contract : RouteContract) (request : Request)
  : Outcome ParsedBody :=
  if declaresNoSchema (requestBody contract) then
    Returned (RawBody (request_body request))
  else
    let contentType :=
      normalizeContentType (Headers_get (request_headers request) "content-type") in
    match requestBody contract !! contentType with
    | None =>
        raise UnsupportedMediaType
          ("Unsupported content type " ++ contentType ++ ", accepted: "
           ++ acceptedTypes (requestBody contract)) None
    | Some schema =>
        if jsonFamily contentType then
          match JSON_parse (default "" (request_body request)) with
          | Thrown _ => raise UnsupportedMediaType "Request body is not JSON" None
          | Returned value =>
              match validate schema value with
              | Valid typed => Returned (TypedBody typed)
              | Invalid found =>
                  raise UnprocessableEntity "Request body is invalid" (Some found)
              end
          end
        else Returned (RawBody (request_body request))
    end.

(** Modelled from the spec: step 5 of [validateResponse], "a response
    object wrapping the original status/headers with the already-buffered
    body". *)
Definition buffered (response : Response) (text : string) : Response :=
  {| response_status := response_status response;
     response_headers := response_headers response;
     response_body := Some text;
     response_state := Unread |}.

(** Modelled from the spec: [validateResponse], section 4.1, steps 1 to 5.
    The definition is looked up under the response's status code. *)
Definition validateResponse (contract : RouteContract) (response : Response)
  : Outcome Response :=
  match responses contract !! response_status response with
  | None => raise Internal "Undeclared response status" None
  | Some definition =>
      if declaresNoSchema (content definition) then Returned response
      else
        let contentType :=
          normalizeContentType (Headers_get (response_headers response) "content-type") in
        match content definition !! contentType with
        | None => raise Internal "Undeclared response content type" None
        | Some schema =>
            text ← Response_text response;
            match JSON_parse text with
            | Thrown _ => raise Internal "Response body is not JSON" None
            | Returned value =>
                match validate schema value with
                | Valid _ => Returned (buffered response text)
                | Invalid found => raise Internal "Response body is invalid" (Some found)
                end
            end
        end
  end.

Definition issueJson (i : Issue) : Json :=
  JObject [("path", JArray (JString <$> issue_path i));
           ("message", JString (issue_message i))].

(** Modelled from the spec: the default serializer of section 4.2, a JSON
    body "{ message, issues? }" under the error's status with a
    [content-type: application/json] header. *)
Definition toJsonErrorResponse (e : ValidationError) : Response :=
  let members :=
    ("message", JString (message e)) ::
    match issues e with
    | Some found => [("issues", JArray (issueJson <$> found))]
    | None => []
    end in
  Response_new (Some (BodyText (JSON_stringify (JObject members)))) (status e)
    [("content-type", "application/json")].

Record HttpError : Type := mkHttpError {
  http_status : Z;
  http_message : string;
  http_response : Response
}.

(** Modelled from the spec: section 4.2, a recognized validation error
    passes through, any other thrown value becomes [Internal] with a
    generic message. *)
Definition asValidationError (thrown : Exception) : ValidationError :=
  match thrown with
  | Validation e => e
  | _ => mkValidationError Internal "Internal Server Error" None
  end.

(** Modelled from the spec: [toHttpError], section 4.2, with the default
    serializer (the adapters pass no other). *)
Definition toHttpError (thrown : Exception) : HttpError :=
  let e := asValidationError thrown in
  {| http_status := status e;
     http_message := message e;
     http_response := toJsonErrorResponse e |}.

(** A pluggable serializer; it may itself fail. *)
Definition ToErrorResponse : Type := ValidationError -> Outcome Response.

(** Modelled from the spec: the fallback of section 7, "a minimal,
    schema-independent 500 response with a fixed plain-text body". *)
Definition fallbackResponse : Response :=
  Response_new (Some (BodyText "Internal Server Error")) 500 [].

(** Modelled from the spec: the Error Middleware of section 4.3. *)
Definition errorHandler (handler : FetchHandler) (toErrorResponse : ToErrorResponse)
  : FetchHandler :=
  fun request =>
    tryCatch (handler request)
      (fun error =>
         tryCatch (toErrorResponse (asValidationError error))
           (fun _ => Returned fallbackResponse)).

End Gate.

End Index.
Import Index.

(** ** The AWS Lambda adapter *)

Module AwsLambda.

(** [event.requestContext.http] *)
Record HttpContext : Type := mkHttpContext {
  http_method : string;
  http_path : string;
  http_protocol : string;
  http_sourceIp : string;
  http_userAgent : string
}.

(** [event.requestContext] *)
Record RequestContext : Type := mkRequestContext {
  accountId : string;
  apiId : string;
  domainName : string;
  domainPrefix : string;
  http : HttpContext;
  requestId : string;
  context_routeKey : string;
  stage : string;
  time : string;
  timeEpoch : Z
}.

(** [APIGatewayProxyEventV2], as the [aws-lambda] type package declares it. *)
Record APIGatewayProxyEventV2 : Type := mkEvent {
  version : string;
  routeKey : string;
  rawPath : string;
  rawQueryString : string;
  cookies : option (list string);
  headers : list (string * string);
  queryStringParameters : option (list (string * string));
  requestContext : RequestContext;
  body : option string;
  pathParameters : option (list (string * string));
  isBase64Encoded : bool;
  stageVariables : option (list (string * string))
}.

(** [APIGatewayProxyStructuredResultV2] *)
Record APIGatewayProxyStructuredResultV2 : Type := mkResult {
  statusCode : Z;
  result_headers : gmap string string;
  result_body : string;
  result_isBase64Encoded : bool
}.

Section Adapter.
Context `{UrlApi} `{JsonApi}.

Definition ProxyHandler : Type :=
  APIGatewayProxyEventV2 -> Outcome APIGatewayProxyStructuredResultV2.

(** [function toRequest(event)] *)
Definition toRequest (event : APIGatewayProxyEventV2) : Outcome Request :=
  url ← URL_new (rawPath event) ("https://" ++ domainName (requestContext event));
  let url := URL_set_search url (rawQueryString event) in
  headers ← Headers_new (headers event);
  let requestInit :=
    {| init_method := http_method (http (requestContext event));
       init_headers := headers;
       init_body := BodyText <$> body event |} in
  Request_new url requestInit.

(** [async function toResult(response)] *)
Definition toResult (response : Response) : Outcome APIGatewayProxyStructuredResultV2 :=
  let headers := fromEntries (Headers_entries (response_headers response)) in
  body ← Response_text response;
  let result :=
    {| statusCode := response_status response;
       result_headers := headers;
       result_body := body;
       result_isBase64Encoded := false |} in
  Returned result.

(** [function toProxyHandler(fetchHandler)].  Inside [try] the request is
    built and the handler awaited; the promise of [toResult] is returned
    without being awaited, so the [catch] clause does not see it fail. *)
Definition toProxyHandler (fetchHandler : FetchHandler) : ProxyHandler :=
  fun event =>
    match (request ← toRequest event; fetchHandler request) with
    | Returned response => toResult response
    | Thrown error =>
        let httpError := toHttpError error in
        toResult (http_response httpError)
    end.

(** The platform result that carries a response read in full. *)
Definition resultOf (response : Response) : APIGatewayProxyStructuredResultV2 :=
  {| statusCode := response_status response;
     result_headers := fromEntries (Headers_entries (response_headers response));
     result_body := default "" (response_body response);
     result_isBase64Encoded := false |}.

End Adapter.

End AwsLambda.

(** ** The Express adapter ([express/index.ts]) *)

Module Express.

(** A value of [req.query]: a string, an array, a nested object, or
    [undefined]. *)
Inductive QueryValue : Type :=
| QString (s : string)
| QArray (items : list QueryValue)
| QObject (fields : list (string * QueryValue))
| QUndefined.

(** [req.query] by its [typeof]: a string, an object with its entries in
    [Object.entries] order, or anything else. *)
Inductive Query : Type :=
| QueryText (s : string)
| QueryObject (entries : list (string * QueryValue))
| QueryOther.

(** The fields of an Express request the adapter reads; [req_stream] is
    the content of the readable stream the request is. *)
Record ExpressRequest : Type := mkExpressRequest {
  req_url : string;
  req_protocol : string;
  req_hostname : string;
  req_query : Query;
  req_method : string;
  req_headers : list (string * string);
  req_stream : string
}.

(** What the callback does with [res] and [next]: the status and the
    headers are set and the response is ended ([None]) or the body stream
    piped into it, a stream that delivers its content or fails ([Sent]);
    or the status and the headers are set, the body stream cannot be
    taken, and the error goes to [next] ([Refused]); or the error of the
    wrapped handler goes to [next] ([Next]). *)
Inductive ExpressResult : Type :=
| Sent (status : Z) (headers : list (string * string)) (body : option (Outcome string))
| Refused (status : Z) (headers : list (string * string)) (error : Exception)
| Next (error : Exception).

(** [Readable.fromWeb(response.body)]: a reader is taken from the stream,
    which a locked stream refuses; the stream then delivers what it has
    left, or fails. *)
Definition fromWeb (response : Response) (content : string) : Outcome (Outcome string) :=
  match response_state response with
  | Consumed | Locked => Thrown (TypeError "ReadableStream is locked")
  | Failing reason => Returned (Thrown reason)
  | Unread | Disturbed => Returned (Returned content)
  end.

(** A route of the router: method, path and callback. *)
Record Route : Type := mkRoute {
  route_method : string;
  route_path : string;
  route_callback : ExpressRequest -> Outcome ExpressResult
}.

Definition Router : Type := list Route.

(** [[^}]+]: the longest run of code units other than a closing brace, and
    what follows it. *)
Fixpoint spanName (s : string) : string * string :=
  match s with
  | EmptyString => (EmptyString, EmptyString)
  | String c s' =>
      if Ascii.eqb c "}" then (EmptyString, s)
      else let '(name, rest) := spanName s' in (String c name, rest)
  end.

(** The pattern [/{([^}]+)}/] at the head of [s]: the captured name and
    the text after the match.  The run is greedy, and giving back part of
    it never helps: the code unit after a shorter run is not a brace. *)
Definition matchPlaceholder (s : string) : option (string * string) :=
  match s with
  | String "{" s' =>
      match spanName s' with
      | (String c name, String "}" rest) => Some (String c name, rest)
      | _ => None
      end
  | _ => None
  end.

(** [s.replace(/{([^}]+)}/g, ':$1')], scanning left to right; one unit of
    fuel is spent per match or copied code unit. *)
Fixpoint replacePlaceholders (fuel : nat) (s : string) : string :=
  match fuel with
  | O => s
  | S fuel' =>
      match matchPlaceholder s with
      | Some (name, rest) => ":" ++ name ++ replacePlaceholders fuel' rest
      | None =>
          match s with
          | EmptyString => EmptyString
          | String c s' => String c (replacePlaceholders fuel' s')
          end
      end
  end.

(** [const expressPath = path.replace(/{([^}]+)}/g, ':$1')] *)
Definition expressPath (path : string) : string :=
  replacePlaceholders (String.length path) path.

(** The string-valued entries of [req.query], in order. *)
Definition stringEntries (entries : list (string * QueryValue)) : list (string * string) :=
  flat_map (fun kv => match snd kv with
                      | QString value => [(fst kv, value)]
                      | _ => []
                      end) entries.

Section Adapter.
Context `{UrlApi} `{JsonApi}.

(** [Endpoint & { router, toErrorResponse?, port? }], the router apart. *)
Record AddRouteParams : Type := mkAddRouteParams {
  method : string;
  pathPattern : string;
  handler : FetchHandler;
  toErrorResponse : option ToErrorResponse;
  port : option Z
}.

(** The URL of the generic request: lines 43 to 55 of the callback. *)
Definition requestUrl (port : option Z) (req : ExpressRequest) : Outcome URL :=
  url ← URL_new (req_url req) (req_protocol req ++ "://" ++ req_hostname req);
  let url :=
    match port with
    | Some p => URL_set_port url (Text.ofZ p)
    | None => url
    end in
  Returned
    match req_query req with
    | QueryText search => URL_set_search url search
    | QueryObject entries =>
        foldl (fun u kv =>
                 match snd kv with
                 | QString value => URL_searchParams_append u (fst kv) value
                 | _ => u
                 end) url entries
    | QueryOther => url
    end.

(** The generic request: lines 43 to 66 of the callback. *)
Definition toFetchRequest (port : option Z) (req : ExpressRequest) : Outcome Request :=
  url ← requestUrl port req;
  headers ← Headers_new (req_headers req);
  let requestInit :=
    {| init_method := req_method req;
       init_headers := headers;
       init_body := Some (BodyStream (req_stream req)) |} in
  Request_new url requestInit.

(** The callback registered for the route.  An exception thrown while the
    request is built leaves the callback; a rejection of the wrapped
    handler, or an exception thrown while the response is written, goes
    to [next]. *)
Definition callback (params : AddRouteParams) (req : ExpressRequest)
  : Outcome ExpressResult :=
  request ← toFetchRequest (port params) req;
  let eh :=
    errorHandler (handler params)
      (default (fun e => Returned (toJsonErrorResponse e)) (toErrorResponse params)) in
  Returned
    match eh request with
    | Returned response =>
        let status := response_status response in
        let headers := Headers_entries (response_headers response) in
        match response_body response with
        | Some content =>
            match fromWeb response content with
            | Returned stream => Sent status headers (Some stream)
            | Thrown error => Refused status headers error
            end
        | None => Sent status headers None
        end
    | Thrown error => Next error
    end.

(** [export function addRoute(params)] *)
Definition addRoute (params : AddRouteParams) (router : Router) : Router :=
  let expressPath := expressPath (pathPattern params) in
  let lowerCaseMethod := Text.toLowerCase (method params) in
  app router [mkRoute lowerCaseMethod expressPath (callback params)].

(** An [Endpoint] of the file-based routing: what [addRoute] takes from
    it. *)
Record Endpoint : Type := mkEndpoint {
  endpoint_method : string;
  endpoint_pathPattern : string;
  endpoint_handler : FetchHandler
}.

(** [{ router, ...endpoint }]: no serializer and no port are given. *)
Definition endpointParams (endpoint : Endpoint) : AddRouteParams :=
  {| method := endpoint_method endpoint;
     pathPattern := endpoint_pathPattern endpoint;
     handler := endpoint_handler endpoint;
     toErrorResponse := None;
     port := None |}.

(** [export async function addRoutes(router, routeDir)], given the
    [importEndpoints] of the file-based routing. *)
Definition addRoutes (importEndpoints : string -> Outcome (list Endpoint))
    (router : Router) (routeDir : string) : Outcome Router :=
  endpoints ← importEndpoints routeDir;
  Returned (foldl (fun r endpoint => addRoute (endpointParams endpoint) r) router endpoints).

End Adapter.

End Express.

(** ** A reference host, for running the adapters on concrete inputs

    [Url] covers hierarchical URLs written with URL code points only: the
    components are split as the URL standard splits them, and kept as
    written (no percent-encoding, dot-segment removal or host
    canonicalisation).  [Json] reads and prints JSON documents with
    integer numbers and two-character escapes. *)

Module Reference.

(** A URL record; [mkUrl] makes one without credentials. *)
Record Url : Type := mkUrlWith {
  protocol : string;
  hostname : string;
  port : string;
  pathname : string;
  search : string;
  hash : string;
  username : string;
  password : string
}.

Definition mkUrl (protocol hostname port pathname search hash : string) : Url :=
  mkUrlWith protocol hostname port pathname search hash EmptyString EmptyString.

Fixpoint span (stop : ascii -> bool) (s : string) : string * string :=
  match s with
  | EmptyString => (EmptyString, EmptyString)
  | String c s' =>
      if stop c then (EmptyString, s)
      else let '(before, rest) := span stop s' in (String c before, rest)
  end.

Definition is_alpha (c : ascii) : bool := Text.is_upper c || Text.is_lower c.

Definition is_scheme (s : string) : bool :=
  match s with
  | EmptyString => false
  | String c s' =>
      is_alpha c
      && Text.forallb (fun d => is_alpha d || Text.is_digit d || Text.contains d "+-.") s'
  end.

Definition is_host (s : string) : bool :=
  negb (String.eqb s "")
  && Text.forallb (fun c => negb (Text.contains c " #/<>?@[\]^|%:")) s.

(** The default port of a special scheme. *)
Definition defaultPort (scheme : string) : option Z :=
  if String.eqb scheme "http" || String.eqb scheme "ws" then Some 80
  else if String.eqb scheme "https" || String.eqb scheme "wss" then Some 443
  else if String.eqb scheme "ftp" then Some 21
  else None.

Fixpoint portNumber (acc : Z) (digits : string) : Z :=
  match digits with
  | EmptyString => acc
  | String c rest => portNumber (10 * acc + (Z.of_nat (nat_of_ascii c) - 48)) rest
  end.

(** The port a run of digits stands for under a scheme: none for no
    digits and for the default port of the scheme; a number above 65535
    is no port. *)
Definition normalizePort (scheme digits : string) : option string :=
  if String.eqb digits "" then Some EmptyString
  else
    let n := portNumber 0 digits in
    if 65535 <? n then None
    else if bool_decide (defaultPort scheme = Some n) then Some EmptyString
    else Some (Text.ofZ n).

(** [path?query#fragment] *)
Definition splitPath (s : string) : string * string * string :=
  let '(path, rest) := span (fun c => Text.contains c "?#") s in
  let '(query, fragment) :=
    match rest with
    | String "?" rest' =>
        let '(q, f) := Text.cut "#" rest' in (q, default "" f)
    | String "#" f => (EmptyString, f)
    | _ => (EmptyString, EmptyString)
    end in
  (if String.eqb path "" then "/" else path, query, fragment).

(** [user:password@] before the host: the text before the last [@] of the
    authority, and what follows it. *)
Definition splitUserinfo (authority : string) : string * string * string :=
  match Text.cut "@" (Text.rev authority) with
  | (hostport, Some userinfo) =>
      let '(user, pass) := Text.cut ":" (Text.rev userinfo) in
      (user, default "" pass, Text.rev hostport)
  | (_, None) => (EmptyString, EmptyString, authority)
  end.

(** [user:password@host:port/path?query#fragment] under a given scheme *)
Definition parseAuthority (scheme : string) (s : string) : option Url :=
  let '(authority, rest) := span (fun c => Text.contains c "/?#") s in
  let '(user, pass, hostport) := splitUserinfo authority in
  let '(host, p) := Text.cut ":" hostport in
  let '(path, query, fragment) := splitPath rest in
  if is_host host && Text.forallb Text.is_digit (default "" p)
  then
    match normalizePort scheme (default "" p) with
    | Some number =>
        Some (mkUrlWith scheme (Text.toLowerCase host) number path query fragment user pass)
    | None => None
    end
  else None.

(** [scheme://host:port/path?query#fragment] *)
Definition parseAbsolute (s : string) : option Url :=
  match Text.cut ":" s with
  | (scheme, Some (String "/" (String "/" rest))) =>
      if is_scheme scheme then parseAuthority (Text.toLowerCase scheme) rest else None
  | _ => None
  end.

(** [new URL(input, base)] for a base without a path. *)
Definition newUrl (input base : string) : Outcome Url :=
  match parseAbsolute base with
  | None => Thrown (TypeError "Invalid base URL")
  | Some b =>
      match parseAbsolute input with
      | Some u => Returned u
      | None =>
          match input with
          | String "/" (String "/" rest) =>
              match parseAuthority (protocol b) rest with
              | Some u => Returned u
              | None => Thrown (TypeError "Invalid URL")
              end
          | String "/" _ =>
              let '(path, query, fragment) := splitPath input in
              Returned (mkUrlWith (protocol b) (hostname b) (port b) path query fragment
                          (username b) (password b))
          | _ =>
              let '(path, query, fragment) := splitPath (String "/" input) in
              Returned (mkUrlWith (protocol b) (hostname b) (port b) path query fragment
                          (username b) (password b))
          end
      end
  end.

(** [url.port = value]: the empty text clears the port; otherwise the
    leading digits count, and a value without any, or above 65535,
    changes nothing. *)
Definition setPort (u : Url) (value : string) : Url :=
  let digits := fst (span (fun c => negb (Text.is_digit c)) value) in
  if negb (String.eqb value "") && String.eqb digits "" then u
  else
    match normalizePort (protocol u) digits with
    | Some number =>
        mkUrlWith (protocol u) (hostname u) number (pathname u) (search u) (hash u)
          (username u) (password u)
    | None => u
    end.

Definition setSearch (u : Url) (value : string) : Url :=
  let query := match value with String "?" q => q | _ => value end in
  mkUrlWith (protocol u) (hostname u) (port u) (pathname u) query (hash u)
    (username u) (password u).

(** The pieces of [s] between occurrences of [sep]. *)
Fixpoint pieces (sep : ascii) (current : string) (s : string) : list string :=
  match s with
  | EmptyString => [Text.rev current]
  | String c s' =>
      if Ascii.eqb c sep then Text.rev current :: pieces sep EmptyString s'
      else pieces sep (String c current) s'
  end.

Definition plusToSpace (s : string) : string :=
  Text.map (fun c => if Ascii.eqb c "+" then " "%char else c) s.

Definition spaceToPlus (s : string) : string :=
  Text.map (fun c => if Ascii.eqb c " " then "+"%char else c) s.

(** The pairs of a query string, as [URLSearchParams] lists them. *)
Definition searchParams (u : Url) : list (string * string) :=
  List.map
    (fun piece =>
       let '(name, value) := Text.cut "=" piece in
       (plusToSpace name, plusToSpace (default "" value)))
    (List.filter (fun piece => negb (String.eqb piece "")) (pieces "&" EmptyString (search u))).

Definition serializeParams (params : list (string * string)) : string :=
  Text.join "&" (List.map (fun kv => spaceToPlus (fst kv) ++ "=" ++ spaceToPlus (snd kv)) params).

(** [url.searchParams.append(name, value)]: the pair goes to the end of
    the list and the query is written back from the list. *)
Definition appendParam (u : Url) (name value : string) : Url :=
  setSearch u (serializeParams (app (searchParams u) [(name, value)])).

(** Whether the URL includes credentials. *)
Definition hasCredentials (u : Url) : bool :=
  negb (String.eqb (username u) "") || negb (String.eqb (password u) "").

#[export] Instance url : UrlApi := {|
  URL := Url;
  URL_new := newUrl;
  URL_set_port := setPort;
  URL_set_search := setSearch;
  URL_searchParams := searchParams;
  URL_searchParams_append := appendParam;
  URL_credentials := hasCredentials
|}.

(** [url.href] *)
Definition href (u : Url) : string :=
  protocol u ++ "://"
  ++ (if hasCredentials u
      then username u
           ++ (if String.eqb (password u) "" then "" else ":" ++ password u) ++ "@"
      else "")
  ++ hostname u
  ++ (if String.eqb (port u) "" then "" else ":" ++ port u)
  ++ pathname u
  ++ (if String.eqb (search u) "" then "" else "?" ++ search u)
  ++ (if String.eqb (hash u) "" then "" else "#" ++ hash u).

Definition is_json_space (c : ascii) : bool :=
  let n := nat_of_ascii c in
  Nat.eqb n 9 || Nat.eqb n 10 || Nat.eqb n 13 || Nat.eqb n 32.

Definition skipSpace (s : string) : string := Text.dropWhile is_json_space s.

Definition dquote : ascii := ascii_of_nat 34.

Definition unescape (c : ascii) : option ascii :=
  if Ascii.eqb c "n" then Some (ascii_of_nat 10)
  else if Ascii.eqb c "t" then Some (ascii_of_nat 9)
  else if Ascii.eqb c "r" then Some (ascii_of_nat 13)
  else if Ascii.eqb c dquote || Text.contains c "\/" then Some c
  else None.

(** The characters of a string literal after its opening quote, and the
    text after its closing quote. *)
Fixpoint readString (s : string) : option (string * string) :=
  match s with
  | EmptyString => None
  | String c rest =>
      if Ascii.eqb c dquote then Some (EmptyString, rest)
      else if Ascii.eqb c "\" then
        match rest with
        | String e rest' =>
            match unescape e, readString rest' with
            | Some d, Some (text, after) => Some (String d text, after)
            | _, _ => None
            end
        | EmptyString => None
        end
      else if (nat_of_ascii c <? 32)%nat then None
      else match readString rest with
           | Some (text, after) => Some (String c text, after)
           | None => None
           end
  end.

Definition digitValue (c : ascii) : Z := Z.of_nat (nat_of_ascii c) - 48.

Fixpoint readDigits (acc : Z) (s : string) : Z * string :=
  match s with
  | String c rest =>
      if Text.is_digit c then readDigits (10 * acc + digitValue c) rest else (acc, s)
  | EmptyString => (acc, s)
  end.

Definition readNumber (s : string) : option (Z * string) :=
  let '(negative, digits) :=
    match s with
    | String "-" rest => (true, rest)
    | _ => (false, s)
    end in
  match digits with
  | String c _ =>
      if Text.is_digit c
      then let '(n, rest) := readDigits 0 digits in
           Some (if negative then - n else n, rest)
      else None
  | EmptyString => None
  end.

Definition readLiteral (word : string) (v : Json) (s : string) : option (Json * string) :=
  if String.eqb (substring 0 (String.length word) s) word
  then Some (v, substring (String.length word) (String.length s) s)
  else None.

Fixpoint readValue (fuel : nat) (s : string) : option (Json * string) :=
  match fuel with
  | O => None
  | S fuel' =>
      match skipSpace s with
      | String "{" rest =>
          match skipSpace rest with
          | String "}" after => Some (JObject [], after)
          | _ =>
              match readMembers fuel' rest with
              | Some (members, after) => Some (JObject members, after)
              | None => None
              end
          end
      | String "[" rest =>
          match skipSpace rest with
          | String "]" after => Some (JArray [], after)
          | _ =>
              match readItems fuel' rest with
              | Some (items, after) => Some (JArray items, after)
              | None => None
              end
          end
      | String "t" _ as w => readLiteral "true" (JBool true) w
      | String "f" _ as w => readLiteral "false" (JBool false) w
      | String "n" _ as w => readLiteral "null" JNull w
      | String c rest as w =>
          if Ascii.eqb c dquote then
            match readString rest with
            | Some (text, after) => Some (JString text, after)
            | None => None
            end
          else
            match readNumber w with
            | Some (n, after) => Some (JNumber n, after)
            | None => None
            end
      | EmptyString => None
      end
  end
with readItems (fuel : nat) (s : string) : option (list Json * string) :=
  match fuel with
  | O => None
  | S fuel' =>
      match readValue fuel' s with
      | Some (item, after) =>
          match skipSpace after with
          | String "," more =>
              match readItems fuel' more with
              | Some (items, rest) => Some (item :: items, rest)
              | None => None
              end
          | String "]" rest => Some ([item], rest)
          | _ => None
          end
      | None => None
      end
  end
with readMembers (fuel : nat) (s : string) : option (list (string * Json) * string) :=
  match fuel with
  | O => None
  | S fuel' =>
      match skipSpace s with
      | String c rest =>
          match (if Ascii.eqb c dquote then readString rest else None) with
          | Some (key, after) =>
              match skipSpace after with
              | String ":" more =>
                  match readValue fuel' more with
                  | Some (v, after') =>
                      match skipSpace after' with
                      | String "," next =>
                          match readMembers fuel' next with
                          | Some (members, rest') => Some ((key, v) :: members, rest')
                          | None => None
                          end
                      | String "}" rest' => Some ([(key, v)], rest')
                      | _ => None
                      end
                  | None => None
                  end
              | _ => None
              end
          | None => None
          end
      | _ => None
      end
  end.

(** [JSON.parse(text)] *)
Definition parse (text : string) : Outcome Json :=
  match readValue (2 * String.length text + 2) text with
  | Some (v, rest) =>
      if String.eqb (skipSpace rest) "" then Returned v
      else Thrown (SyntaxError "Unexpected non-whitespace character after JSON")
  | None => Thrown (SyntaxError "Unexpected token in JSON")
  end.

Fixpoint escape (s : string) : string :=
  match s with
  | EmptyString => EmptyString
  | String c rest =>
      if Ascii.eqb c dquote || Ascii.eqb c "\" then String "\" (String c (escape rest))
      else if Nat.eqb (nat_of_ascii c) 10 then String "\" (String "n" (escape rest))
      else String c (escape rest)
  end.

Definition quote (s : string) : string :=
  String dquote (escape s) ++ String dquote EmptyString.

(** [JSON.stringify(value)] *)
Fixpoint stringify (v : Json) : string :=
  match v with
  | JNull => "null"
  | JBool true => "true"
  | JBool false => "false"
  | JNumber n => Text.ofZ n
  | JString s => quote s
  | JArray items => "[" ++ Text.join "," (List.map stringify items) ++ "]"
  | JObject members =>
      "{" ++ Text.join ","
               (List.map (fun kv => match kv with
                                    | (k, x) => quote k ++ ":" ++ stringify x
                                    end) members)
          ++ "}"
  end.

#[export] Instance json : JsonApi := {|
  JSON_parse := parse;
  JSON_stringify := stringify
|}.

(** A small schema language, enough for the route of the package's
    example ([thing.ts]): an object of string fields, each tested by an
    unanchored pattern. *)
Inductive Pattern : Type :=
| Digits
| Lowercase.

Fixpoint existsChar (p : ascii -> bool) (s : string) : bool :=
  match s with
  | EmptyString => false
  | String c s' => p c || existsChar p s'
  end.

(** [/[\d]+/.test(s)] and [/[a-z]+/.test(s)] *)
Definition test (p : Pattern) (s : string) : bool :=
  match p with
  | Digits => existsChar Text.is_digit s
  | Lowercase => existsChar Text.is_lower s
  end.

Record Field : Type := mkField {
  field_name : string;
  field_pattern : Pattern;
  field_optional : bool
}.

Definition ObjectSchema : Type := list Field.

Definition member (key : string) (members : list (string * Json)) : option Json :=
  snd <$> List.find (fun kv => String.eqb (fst kv) key) (List.rev members).

Definition checkField (members : list (string * Json)) (f : Field) : list Issue :=
  match member (field_name f) members with
  | Some (JString s) =>
      if test (field_pattern f) s then [] else [mkIssue [field_name f] "Invalid"]
  | Some _ => [mkIssue [field_name f] "Expected string"]
  | None => if field_optional f then [] else [mkIssue [field_name f] "Required"]
  end.

Definition keepField (members : list (string * Json)) (f : Field) : list (string * string) :=
  match member (field_name f) members with
  | Some (JString s) => [(field_name f, s)]
  | _ => []
  end.

Definition check (schema : ObjectSchema) (value : Json) : Checked (list (string * string)) :=
  match value with
  | JObject members =>
      match flat_map (checkField members) schema with
      | [] => Valid (flat_map (keepField members) schema)
      | found => Invalid found
      end
  | _ => Invalid [mkIssue [] "Expected object"]
  end.

#[export] Instance schemas : SchemaCapability := {|
  Schema := ObjectSchema;
  Typed := list (string * string);
  validate := check
|}.

(** A capability that rejects every value and reports no issue. *)
Definition mute : SchemaCapability := {|
  Schema := unit;
  Typed := unit;
  validate := fun _ _ => Invalid []
|}.

(** A contract under [mute]: one JSON body schema, no response. *)
Definition muteContract : @RouteContract mute :=
  @mkRouteContract mute "post" "/things" None None
    {[ "application/json" := tt ]} ∅ None.

(** The route of [thing.ts]. *)
Definition ThingParamsSchema : ObjectSchema := [mkField "thingId" Digits false].
Definition ThingQuerySchema : ObjectSchema := [mkField "thingId" Digits true].
Definition ThingBodySchema : ObjectSchema :=
  [mkField "name" Lowercase false; mkField "description" Lowercase false].

(** [Response404] to [Response500] are declared by the index; here they
    carry no content schema. *)
Definition errorDefinition (text : string) : ResponseDefinition :=
  mkResponseDefinition text ∅.

Definition routeConfig : RouteContract :=
  {| method := "post";
     pathTemplate := "/things/{thingId}";
     paramsSchema := Some ThingParamsSchema;
     querySchema := Some ThingQuerySchema;
     requestBody := {[ "application/json" := ThingBodySchema ]};
     responses :=
       <[200 := mkResponseDefinition "Create a thing"
                  {[ "application/json" := ThingBodySchema ]}]>
       (<[404 := errorDefinition "Not found"]>
       (<[415 := errorDefinition "Unsupported media type"]>
       (<[422 := errorDefinition "Unprocessable entity"]>
       (<[500 := errorDefinition "Internal server error"]> ∅))));
     defaultResponse := None |}.

Definition thingJson (name description : string) : Json :=
  JObject [("name", JString name); ("description", JString description)].

(** [goodThing] and [badThing] *)
Definition goodThing : Json := thingJson "mything" "besthingever".
Definition badThing : Json := thingJson "MYTHING" "WORSTTHINGEVER".

(** [Response.json(data)] *)
Definition Response_json (data : Json) : Response :=
  Response_new (Some (BodyText (stringify data))) 200
    [("content-type", "application/json")].

(** The body half of [thingHandler]: validate the request body, answer
    with it, validate the answer. *)
Definition thingHandler : FetchHandler :=
  fun input =>
    body ← validateBody routeConfig input;
    match body with
    | TypedBody fields =>
        validateResponse routeConfig
          (Response_json (JObject (List.map (fun kv => (fst kv, JString (snd kv))) fields)))
    | RawBody _ => validateResponse routeConfig (Response_json JNull)
    end.

(** [thingRequest]: the request for [POST http://host.com/things/1] under
    a given content type. *)
Definition thingRequest (contentType : string) (body : option string) : Request :=
  {| request_url := mkUrl "http" "host.com" "" "/things/1" "" "";
     request_method := "POST";
     request_headers := [("content-type", contentType)];
     request_body := body |}.

(** An API Gateway event for [POST /things/1] on [host.com]. *)
Definition thingEvent (method : string) (body : option string) (encoded : bool)
  : AwsLambda.APIGatewayProxyEventV2 :=
  {| AwsLambda.version := "2.0";
     AwsLambda.routeKey := "$default";
     AwsLambda.rawPath := "/things/1";
     AwsLambda.rawQueryString := "";
     AwsLambda.cookies := None;
     AwsLambda.headers := [("content-type", "application/json")];
     AwsLambda.queryStringParameters := None;
     AwsLambda.requestContext :=
       {| AwsLambda.accountId := "123456789012";
          AwsLambda.apiId := "api-id";
          AwsLambda.domainName := "host.com";
          AwsLambda.domainPrefix := "host";
          AwsLambda.http :=
            {| AwsLambda.http_method := method;
               AwsLambda.http_path := "/things/1";
               AwsLambda.http_protocol := "HTTP/1.1";
               AwsLambda.http_sourceIp := "192.0.2.1";
               AwsLambda.http_userAgent := "agent" |};
          AwsLambda.requestId := "id";
          AwsLambda.context_routeKey := "$default";
          AwsLambda.stage := "$default";
          AwsLambda.time := "12/Mar/2020:19:03:58 +0000";
          AwsLambda.timeEpoch := 1583348638390 |};
     AwsLambda.body := body;
     AwsLambda.pathParameters := None;
     AwsLambda.isBase64Encoded := encoded;
     AwsLambda.stageVariables := None |}.

(** An Express request for [POST url] on [localhost], with [req.query] as
    Express derives it from the query string of [url]. *)
Definition thingsRequest (url : string) (query : Express.Query) (body : string)
  : Express.ExpressRequest :=
  {| Express.req_url := url;
     Express.req_protocol := "http";
     Express.req_hostname := "localhost";
     Express.req_query := query;
     Express.req_method := "POST";
     Express.req_headers := [("content-type", "application/json")];
     Express.req_stream := body |}.

Definition thingParams : Express.AddRouteParams :=
  {| Express.method := "POST";
     Express.pathPattern := "/things/{thingId}";
     Express.handler := thingHandler;
     Express.toErrorResponse := None;
     Express.port := None |}.

End Reference.

(** ** Path templates, as the Route Contract writes them

    A template is a sequence of literal text and named placeholders; the
    contract writes a placeholder in braces, Express after a colon. *)

Module Template.

Inductive Segment : Type :=
| Literal (text : string)
| Placeholder (name : string).

(** The brace-delimited spelling: [/things/{thingId}]. *)
Fixpoint braces (segments : list Segment) : string :=
  match segments with
  | [] => EmptyString
  | Literal text :: rest => text ++ braces rest
  | Placeholder name :: rest => "{" ++ name ++ "}" ++ braces rest
  end.

(** The Express spelling: [/things/:thingId]. *)
Fixpoint colons (segments : list Segment) : string :=
  match segments with
  | [] => EmptyString
  | Literal text :: rest => text ++ colons rest
  | Placeholder name :: rest => ":" ++ name ++ colons rest
  end.

(** Literal text opens no placeholder; a name is not empty and holds no
    closing brace. *)
Definition wellFormed (segment : Segment) : bool :=
  match segment with
  | Literal text => negb (Text.contains "{" text)
  | Placeholder name => negb (String.eqb name "") && negb (Text.contains "}" name)
  end.

End Template.

(** * Properties *)

Import Express Template.

#[local] Existing Instances Reference.url Reference.json Reference.schemas.

(** ** Rewriting path templates *)

Section PathRewrite.

(** The pattern, with its two braces tested by comparison. *)
Lemma matchPlaceholder_unfold (c : ascii) (s : string) :
  matchPlaceholder (String c s) =
  if Ascii.eqb c "{" then
    match spanName s with
    | (String d name, String e rest) =>
        if Ascii.eqb e "}" then Some (String d name, rest) else None
    | _ => None
    end
  else None.
Proof.
  destruct (Ascii.eqb_spec c "{") as [->|ne].
  - simpl. destruct (spanName s) as [[|d name] [|e rest]]; try reflexivity.
    destruct (Ascii.eqb_spec e "}") as [->|ne]; [reflexivity|].
    destruct e as [[] [] [] [] [] [] [] []]; try reflexivity. contradiction.
  - destruct c as [[] [] [] [] [] [] [] []]; try reflexivity. contradiction.
Qed.

Lemma spanName_length (s name rest : string) :
  spanName s = (name, rest) ->
  (String.length name + String.length rest = String.length s)%nat.
Proof.
  revert name rest. induction s as [|c s IH]; intros name rest; simpl.
  - intros [= <- <-]. reflexivity.
  - destruct (Ascii.eqb c "}").
    + intros [= <- <-]. reflexivity.
    + destruct (spanName s) as [n r] eqn:E. intros [= <- <-].
      simpl. f_equal. apply IH. reflexivity.
Qed.

Lemma matchPlaceholder_shorter (s name rest : string) :
  matchPlaceholder s = Some (name, rest) ->
  (String.length rest < String.length s)%nat.
Proof.
  destruct s as [|c s]; [discriminate|].
  rewrite matchPlaceholder_unfold.
  destruct (Ascii.eqb c "{"); [|discriminate].
  destruct (spanName s) as [n r] eqn:E.
  apply spanName_length in E.
  destruct n as [|d n]; [discriminate|].
  destruct r as [|e r]; [discriminate|].
  destruct (Ascii.eqb e "}"); [|discriminate].
  intros [= <- <-]. simpl in E. simpl. lia.
Qed.

(** Fuel beyond the length of the text changes nothing. *)
Lemma replacePlaceholders_fuel (n : nat) :
  forall (s : string) (m : nat),
    (String.length s <= n)%nat -> (String.length s <= m)%nat ->
    replacePlaceholders n s = replacePlaceholders m s.
Proof.
  induction n as [|n IH]; intros s m Hn Hm.
  - destruct s; [|simpl in Hn; lia]. destruct m; reflexivity.
  - destruct m as [|m].
    + destruct s; [reflexivity|simpl in Hm; lia].
    + simpl. destruct (matchPlaceholder s) as [[name rest]|] eqn:E.
      * apply matchPlaceholder_shorter in E.
        rewrite (IH rest m); [reflexivity|lia|lia].
      * destruct s as [|c s]; [reflexivity|].
        simpl in Hn, Hm. rewrite (IH s m); [reflexivity|lia|lia].
Qed.

Lemma expressPath_match (s name rest : string) :
  matchPlaceholder s = Some (name, rest) ->
  expressPath s = ":" ++ name ++ expressPath rest.
Proof.
  intros E. unfold expressPath.
  pose proof (matchPlaceholder_shorter _ _ _ E) as Hlt.
  destruct (String.length s) as [|n] eqn:Hs; [lia|].
  simpl. rewrite E.
  rewrite (replacePlaceholders_fuel n rest (String.length rest)); [reflexivity|lia|lia].
Qed.

Lemma expressPath_copy (c : ascii) (s : string) :
  matchPlaceholder (String c s) = None ->
  expressPath (String c s) = String c (expressPath s).
Proof.
  intros E. unfold expressPath.
  change (String.length (String c s)) with (S (String.length s)).
  cbn [replacePlaceholders]. rewrite E. reflexivity.
Qed.

Lemma spanName_name (name rest : string) :
  Text.contains "}" name = false ->
  spanName (name ++ String "}" rest) = (name, String "}" rest).
Proof.
  induction name as [|c name IH]; intros Hn.
  - reflexivity.
  - cbn [Text.contains] in Hn. apply orb_false_elim in Hn as [Hc Hn].
    change (spanName (String c (name ++ String "}" rest)) = (String c name, String "}" rest)).
    cbn [spanName]. rewrite (Ascii.eqb_sym c), Hc, (IH Hn). reflexivity.
Qed.

Lemma matchPlaceholder_braces (name rest : string) :
  name <> "" -> Text.contains "}" name = false ->
  matchPlaceholder ("{" ++ name ++ "}" ++ rest) = Some (name, rest).
Proof.
  intros Hne Hn.
  change ("{" ++ name ++ "}" ++ rest) with (String "{" (name ++ String "}" rest)).
  rewrite matchPlaceholder_unfold, spanName_name by assumption.
  destruct name; [contradiction|reflexivity].
Qed.

Lemma expressPath_literal (text rest : string) :
  Text.contains "{" text = false ->
  expressPath (text ++ rest) = text ++ expressPath rest.
Proof.
  induction text as [|c text IH]; intros Hn.
  - reflexivity.
  - cbn [Text.contains] in Hn. apply orb_false_elim in Hn as [Hc Hn].
    change (expressPath (String c (text ++ rest)) = String c (text ++ expressPath rest)).
    rewrite expressPath_copy.
    + rewrite IH by assumption. reflexivity.
    + rewrite matchPlaceholder_unfold, (Ascii.eqb_sym c), Hc. reflexivity.
Qed.

(** On a well-formed template the rewrite turns the brace spelling into
    the colon spelling. *)
Lemma expressPath_template (segments : list Segment) :
  forallb wellFormed segments = true ->
  expressPath (braces segments) = colons segments.
Proof.
  induction segments as [|[text|name] segments IH]; simpl.
  - reflexivity.
  - intros [Hw Hr]%andb_prop. apply negb_true_iff in Hw.
    rewrite expressPath_literal, IH by assumption. reflexivity.
  - intros [[Hne Hn]%andb_prop Hr]%andb_prop.
    apply negb_true_iff in Hne, Hn. apply String.eqb_neq in Hne.
    rewrite (expressPath_match _ name (braces segments)).
    + rewrite IH by assumption. reflexivity.
    + apply matchPlaceholder_braces; assumption.
Qed.

End PathRewrite.

(** C8: for a path template made of literal text and brace-delimited
    placeholders, [addRoute] registers the handler under the lower-cased
    method and the path in which every [{name}] reads [:name] and all
    other text is unchanged. *)
Theorem addRoute_rewrites_placeholders `{UrlApi} `{JsonApi}
    (params : AddRouteParams) (router : Router) (segments : list Segment) :
  forallb wellFormed segments = true ->
  pathPattern params = braces segments ->
  addRoute params router =
  app router
    [mkRoute (Text.toLowerCase (method params)) (colons segments) (callback params)].
Proof.
  intros Hw Hp. unfold addRoute. rewrite Hp, expressPath_template by assumption.
  reflexivity.
Qed.

Lemma addRoute_rewrites_placeholders_witness :
  forallb wellFormed [Literal "/things/"; Placeholder "thingId"] = true
  /\ pathPattern Reference.thingParams = braces [Literal "/things/"; Placeholder "thingId"]
  /\ addRoute Reference.thingParams [] =
     [mkRoute "post" "/things/:thingId" (callback Reference.thingParams)].
Proof.
  split; [reflexivity|]. split; [reflexivity|].
  apply (addRoute_rewrites_placeholders Reference.thingParams []
           [Literal "/things/"; Placeholder "thingId"]); reflexivity.
Defined.

(** The rewrite on templates outside the well-formed ones: an empty pair
    of braces and an unclosed brace stay, a nested opening brace goes
    into the name. *)
Example expressPath_edge_cases :
  expressPath "/a/{}/{b{c}/{d" = "/a/{}/:b{c/{d".
Proof. reflexivity. Qed.

(** ** The Lambda adapter *)

Import AwsLambda.

Section Lambda.
Context `{UrlApi} `{JsonApi}.

Lemma Response_text_readable (response : Response) :
  bodyReadable response = true ->
  Response_text response = Returned (default "" (response_body response)).
Proof.
  unfold bodyReadable, Response_text.
  destruct (response_body response); [|reflexivity].
  destruct (response_state response); (discriminate || reflexivity).
Qed.

Lemma Response_text_unreadable (response : Response) :
  bodyReadable response = false ->
  exists error, Response_text response = Thrown error.
Proof.
  unfold bodyReadable, Response_text.
  destruct (response_body response); [|discriminate].
  destruct (response_state response); (discriminate || eauto).
Qed.

Lemma toResult_resultOf (response : Response) :
  bodyReadable response = true ->
  toResult response = Returned (resultOf response).
Proof.
  intros Hr. unfold toResult. rewrite (Response_text_readable _ Hr). reflexivity.
Qed.

Lemma toResult_thrown (response : Response) (error : Exception) :
  Response_text response = Thrown error ->
  toResult response = Thrown error.
Proof. intros Ht. unfold toResult. rewrite Ht. reflexivity. Qed.

Lemma toHttpError_fresh (error : Exception) :
  bodyReadable (http_response (toHttpError error)) = true.
Proof. reflexivity. Qed.

Lemma toHttpError_status (error : Exception) :
  response_status (http_response (toHttpError error)) = status (asValidationError error).
Proof. reflexivity. Qed.

Lemma toRequest_inv (event : APIGatewayProxyEventV2) (request : Request) :
  toRequest event = Returned request ->
  exists url headers,
    URL_new (rawPath event) ("https://" ++ domainName (requestContext event)) = Returned url
    /\ Headers_new (AwsLambda.headers event) = Returned headers
    /\ Request_new (URL_set_search url (rawQueryString event))
         {| init_method := http_method (http (requestContext event));
            init_headers := headers;
            init_body := BodyText <$> body event |} = Returned request.
Proof.
  unfold toRequest.
  destruct (URL_new _ _) as [url|e]; [|discriminate].
  destruct (Headers_new _) as [headers|e]; [|discriminate].
  intros Hr. exists url, headers. auto.
Qed.

Lemma Request_new_body (url : URL) (init : RequestInit) (request : Request) :
  Request_new url init = Returned request ->
  request_body request = body_content <$> init_body init.
Proof.
  unfold Request_new.
  destruct (URL_credentials url); [discriminate|].
  destruct (negb _ || _); [discriminate|].
  destruct (init_body init) as [b|].
  - destruct (bodyless_method _); [discriminate|]. intros [= <-]. reflexivity.
  - intros [= <-]. reflexivity.
Qed.

End Lambda.

(** C5, as stated, fails on a response whose body was read before: the
    read in [toResult] is refused and no platform result is returned. *)
Lemma toResult_used_response_throws :
  ~ exists result,
      toResult (mkResponse 200 [("content-type", "text/plain")] (Some "done") true)
      = Returned result.
Proof. intros [result Hr]. discriminate Hr. Qed.

(** C5, amended: for every response whose body can be read to the end
    (it is null, or its stream is unread, not locked and does not fail),
    [toResult] returns the platform result with the response's status,
    the object of its header entries, its whole body text, and
    [isBase64Encoded] false. *)
Theorem toResult_unread_response (response : Response) :
  bodyReadable response = true ->
  toResult response =
  Returned {| statusCode := response_status response;
              result_headers := fromEntries (Headers_entries (response_headers response));
              result_body := default "" (response_body response);
              result_isBase64Encoded := false |}.
Proof.
  intros Hreadable. unfold toResult.
  destruct (Response_text response) as [text|e] eqn:Hread;
    rewrite (Response_text_readable _ Hreadable) in Hread.
  - injection Hread as <-. reflexivity.
  - discriminate Hread.
Qed.

Lemma toResult_unread_response_witness :
  bodyReadable (Reference.Response_json Reference.goodThing) = true
  /\ toResult (Reference.Response_json Reference.goodThing) =
     Returned {| statusCode := 200;
                 result_headers := {[ "content-type" := "application/json" ]};
                 result_body := Reference.stringify Reference.goodThing;
                 result_isBase64Encoded := false |}.
Proof.
  split; [reflexivity|].
  rewrite (toResult_unread_response (Reference.Response_json Reference.goodThing));
    reflexivity.
Defined.

(** C6: whatever value the wrapped handler throws, an [Error] or not, the
    proxy handler settles to exactly the platform result of the error
    response [toHttpError] makes of it; the thrown value does not leave. *)
Theorem toProxyHandler_converts_thrown `{UrlApi} `{JsonApi}
    (fetchHandler : FetchHandler) (event : APIGatewayProxyEventV2)
    (request : Request) (error : Exception) :
  toRequest event = Returned request ->
  fetchHandler request = Thrown error ->
  toProxyHandler fetchHandler event
  = Returned (resultOf (http_response (toHttpError error)))
  /\ statusCode (resultOf (http_response (toHttpError error)))
     = status (asValidationError error).
Proof.
  intros Hreq Hthrow. split; [|reflexivity].
  unfold toProxyHandler. rewrite Hreq. cbn [mbind outcome_bind].
  rewrite Hthrow. apply toResult_resultOf, toHttpError_fresh.
Qed.

Lemma toProxyHandler_converts_thrown_witness :
  toProxyHandler Reference.thingHandler
    (Reference.thingEvent "POST" (Some (Reference.stringify Reference.badThing)) false)
  = Returned
      {| statusCode := 422;
         result_headers := {[ "content-type" := "application/json" ]};
         result_body :=
           Reference.stringify
             (JObject
                [("message", JString "Request body is invalid");
                 ("issues",
                  JArray [issueJson (mkIssue ["name"] "Invalid");
                          issueJson (mkIssue ["description"] "Invalid")])]);
         result_isBase64Encoded := false |}.
Proof.
  refine (proj1 (toProxyHandler_converts_thrown Reference.thingHandler
            (Reference.thingEvent "POST" (Some (Reference.stringify Reference.badThing)) false)
            {| request_url := Reference.mkUrl "https" "host.com" "" "/things/1" "" "";
               request_method := "POST";
               request_headers := [("content-type", "application/json")];
               request_body := Some (Reference.stringify Reference.badThing) |}
            (Validation
               (mkValidationError UnprocessableEntity "Request body is invalid"
                  (Some [mkIssue ["name"] "Invalid"; mkIssue ["description"] "Invalid"])))
            _ _)); reflexivity.
Defined.

(** A thrown value that is no [Error] is converted all the same. *)
Example toProxyHandler_converts_plain_value :
  toProxyHandler (fun _ => Thrown (Value (JString "boom")))
    (Reference.thingEvent "POST" None false)
  = Returned
      {| statusCode := 500;
         result_headers := {[ "content-type" := "application/json" ]};
         result_body :=
           Reference.stringify (JObject [("message", JString "Internal Server Error")]);
         result_isBase64Encoded := false |}.
Proof. reflexivity. Qed.

(** A raw path that opens with two slashes names its own host. *)
Example toRequest_host_from_path :
  (fun request => Reference.href (request_url request)) <$>
    toRequest
      (mkEvent "2.0" "$default" "//other.example/things" "" None [] None
         (requestContext (Reference.thingEvent "POST" None false))
         None None false None)
  = Returned "https://other.example/things".
Proof. reflexivity. Qed.

(** What [Request] makes of an init it accepts. *)
Lemma Request_new_accepts `{UrlApi} (url : URL) (init : RequestInit) :
  URL_credentials url = false ->
  is_token (init_method init) = true ->
  forbidden_method (init_method init) = false ->
  (init_body init = None \/ bodyless_method (normalize_method (init_method init)) = false) ->
  Request_new url init =
  Returned {| request_url := url;
              request_method := normalize_method (init_method init);
              request_headers := with_body_type (init_body init) (init_headers init);
              request_body := body_content <$> init_body init |}.
Proof.
  intros Hplain Htoken Hallowed Hbody. unfold Request_new.
  rewrite Hplain, Htoken, Hallowed. cbn [negb orb].
  destruct (init_body init) as [b|].
  - destruct Hbody as [Hnone|Hmethod]; [discriminate|]. rewrite Hmethod. reflexivity.
  - reflexivity.
Qed.

(** C7, as stated, fails in three ways.  A [GET] event that carries a
    body yields no request: [Request] refuses the body and [toRequest]
    throws.  The method is not taken verbatim: [post] reaches the handler
    as [POST].  The headers are not taken verbatim: a body without a
    declared content type reaches the handler with one. *)
Lemma toRequest_refuses_and_rewrites :
  (~ exists request,
       toRequest (Reference.thingEvent "GET" (Some "{}") false) = Returned request)
  /\ (exists request,
        toRequest (Reference.thingEvent "post" None false) = Returned request
        /\ request_method request = "POST"
        /\ request_method request <> "post")
  /\ (exists request,
        toRequest
          (mkEvent "2.0" "$default" "/things/1" "" None [("accept", "*/*")] None
             (requestContext (Reference.thingEvent "POST" None false))
             (Some "{}") None false None)
        = Returned request
        /\ request_headers request
           = [("accept", "*/*"); ("content-type", "text/plain;charset=UTF-8")]
        /\ request_headers request <> [("accept", "*/*")]).
Proof.
  split; [|split].
  - intros [request Hr]. discriminate Hr.
  - eexists. split; [reflexivity|]. split; [reflexivity|discriminate].
  - eexists. split; [reflexivity|]. split; [reflexivity|discriminate].
Qed.

(** C7, amended: for every event the platform accepts (the raw path
    resolves against the base [https://] followed by the domain name, the
    URL carries no credentials, the headers are valid, and the method is
    a permitted token that is not [GET] or [HEAD] when a body is present),
    [toRequest] returns the request whose URL is rebuilt from the event's
    fields (that resolved URL, with its search set to the raw query
    string), whose method is the event's with the standard methods
    upper-cased, whose headers are those built from the event's, with a
    content type for a text body that declares none, and whose body is
    the event's body. *)
Theorem toRequest_accepted_event `{UrlApi}
    (event : APIGatewayProxyEventV2) (url : URL) (headers : Headers) :
  URL_new (rawPath event) ("https://" ++ domainName (requestContext event)) = Returned url ->
  URL_credentials (URL_set_search url (rawQueryString event)) = false ->
  Headers_new (AwsLambda.headers event) = Returned headers ->
  is_token (http_method (http (requestContext event))) = true ->
  forbidden_method (http_method (http (requestContext event))) = false ->
  (body event = None
   \/ bodyless_method (normalize_method (http_method (http (requestContext event)))) = false) ->
  toRequest event =
  Returned {| request_url := URL_set_search url (rawQueryString event);
              request_method := normalize_method (http_method (http (requestContext event)));
              request_headers := with_body_type (BodyText <$> body event) headers;
              request_body := body event |}.
Proof.
  intros Hurl Hplain Hheaders Htoken Hallowed Hbody.
  unfold toRequest. rewrite Hurl. cbn [mbind outcome_bind].
  rewrite Hheaders. cbn [mbind outcome_bind].
  rewrite Request_new_accepts; cbn [init_method init_headers init_body]; try assumption.
  - destruct (body event); reflexivity.
  - destruct Hbody as [-> | Hmethod]; [left; reflexivity|right; exact Hmethod].
Qed.

Lemma toRequest_accepted_event_witness :
  toRequest (Reference.thingEvent "post" (Some "{}") false) =
  Returned {| request_url := Reference.mkUrl "https" "host.com" "" "/things/1" "" "";
              request_method := "POST";
              request_headers := [("content-type", "application/json")];
              request_body := Some "{}" |}.
Proof.
  refine (toRequest_accepted_event (Reference.thingEvent "post" (Some "{}") false)
            (Reference.mkUrl "https" "host.com" "" "/things/1" "" "")
            [("content-type", "application/json")] _ _ _ _ _ _);
    try reflexivity.
  right. reflexivity.
Defined.

(** A raw path that names credentials is refused by [Request]. *)
Example toRequest_credentials_refused :
  toRequest
    (mkEvent "2.0" "$default" "//user:pw@other.example/x" "" None [] None
       (requestContext (Reference.thingEvent "POST" None false))
       None None false None)
  = Thrown (TypeError "Request cannot be constructed from a URL that includes credentials").
Proof. reflexivity. Qed.

(** Two events that agree on the six fields have the same outcome. *)
Lemma toRequest_same_fields `{UrlApi} (event other : APIGatewayProxyEventV2) :
  rawPath other = rawPath event ->
  domainName (requestContext other) = domainName (requestContext event) ->
  rawQueryString other = rawQueryString event ->
  http_method (http (requestContext other)) = http_method (http (requestContext event)) ->
  AwsLambda.headers other = AwsLambda.headers event ->
  body other = body event ->
  toRequest other = toRequest event.
Proof.
  intros Hpath Hdomain Hquery Hmethod Hheaders Hbody.
  unfold toRequest. rewrite Hpath, Hdomain, Hquery, Hmethod, Hheaders, Hbody.
  reflexivity.
Qed.

(** C10: [toRequest] reads six fields of the event and nothing else: two
    events that agree on the raw path, the domain name, the raw query
    string, the method, the headers and the body give the same outcome,
    whatever their cookies or base64 flag.  The body of a request it
    returns is the event's body as it stands, never decoded; and it does
    return one, with that body, for every event the platform accepts. *)
Theorem toRequest_reads_six_fields `{UrlApi}
    (event other : APIGatewayProxyEventV2) :
  rawPath other = rawPath event ->
  domainName (requestContext other) = domainName (requestContext event) ->
  rawQueryString other = rawQueryString event ->
  http_method (http (requestContext other)) = http_method (http (requestContext event)) ->
  AwsLambda.headers other = AwsLambda.headers event ->
  body other = body event ->
  toRequest other = toRequest event
  /\ (forall request,
        toRequest event = Returned request -> request_body request = body event)
  /\ (forall url headers,
        URL_new (rawPath event) ("https://" ++ domainName (requestContext event))
        = Returned url ->
        URL_credentials (URL_set_search url (rawQueryString event)) = false ->
        Headers_new (AwsLambda.headers event) = Returned headers ->
        is_token (http_method (http (requestContext event))) = true ->
        forbidden_method (http_method (http (requestContext event))) = false ->
        (body event = None
         \/ bodyless_method (normalize_method (http_method (http (requestContext event))))
            = false) ->
        exists request,
          toRequest event = Returned request
          /\ toRequest other = Returned request
          /\ request_body request = body event).
Proof.
  intros Hpath Hdomain Hquery Hmethod Hheaders Hbody.
  pose proof (toRequest_same_fields event other Hpath Hdomain Hquery Hmethod Hheaders Hbody)
    as Hsame.
  split; [exact Hsame|]. split.
  - intros request (url & headers & _ & _ & Hnew)%toRequest_inv.
    apply Request_new_body in Hnew. rewrite Hnew. cbn [init_body].
    destruct (body event); reflexivity.
  - intros url headers Hurl Hplain Hbuilt Htoken Hallowed Haccepted.
    rewrite Hsame. unfold toRequest. rewrite Hurl. cbn [mbind outcome_bind].
    rewrite Hbuilt. cbn [mbind outcome_bind].
    rewrite Request_new_accepts; cbn [init_method init_headers init_body]; try assumption.
    + eexists. split; [reflexivity|]. split; [reflexivity|].
      cbn [request_body]. destruct (body event); reflexivity.
    + destruct Haccepted as [-> | Hm]; [left; reflexivity|right; exact Hm].
Qed.

Lemma toRequest_reads_six_fields_witness :
  toRequest (Reference.thingEvent "POST" (Some "aGVsbG8=") false)
  = toRequest (Reference.thingEvent "POST" (Some "aGVsbG8=") true)
  /\ exists request,
       toRequest (Reference.thingEvent "POST" (Some "aGVsbG8=") true) = Returned request
       /\ toRequest (Reference.thingEvent "POST" (Some "aGVsbG8=") false) = Returned request
       /\ request_body request = Some "aGVsbG8=".
Proof.
  destruct (toRequest_reads_six_fields
              (Reference.thingEvent "POST" (Some "aGVsbG8=") true)
              (Reference.thingEvent "POST" (Some "aGVsbG8=") false)
              eq_refl eq_refl eq_refl eq_refl eq_refl eq_refl)
    as (Hsame & _ & Hreturns).
  split; [exact Hsame|].
  apply (Hreturns (Reference.mkUrl "https" "host.com" "" "/things/1" "" "")
           [("content-type", "application/json")]); try reflexivity.
  right. reflexivity.
Defined.

(** ** The Express adapter's request URL *)

Section ExpressUrl.
Context `{UrlApi}.

(** Only the string-valued entries are appended, in order, to the URL
    made of [req.url]; what that URL already holds stays. *)
Lemma requestUrl_appends_strings (req : ExpressRequest)
    (entries : list (string * QueryValue)) (url : URL) :
  req_query req = QueryObject entries ->
  URL_new (req_url req) (req_protocol req ++ "://" ++ req_hostname req) = Returned url ->
  requestUrl None req =
  Returned (foldl (fun u kv => URL_searchParams_append u (fst kv) (snd kv)) url
              (stringEntries entries)).
Proof.
  intros Hq Hu. unfold requestUrl. rewrite Hu, Hq. cbn [mbind outcome_bind].
  f_equal. clear Hu Hq. revert url.
  induction entries as [|[key value] entries IH]; intros url; [reflexivity|].
  destruct value; cbn; apply IH.
Qed.

End ExpressUrl.

(** C9, at requests as Express delivers them: [req.url] carries the query
    string [req.query] was parsed from, and the object branch only appends
    to the URL made of it.  The array-valued parameter stays in the URL of
    the generic request, and the string-valued one is held twice. *)
Theorem requestUrl_repeats_url_query :
  Reference.href <$>
    requestUrl None
      (Reference.thingsRequest "/things?a=1&a=2"
         (QueryObject [("a", QArray [QString "1"; QString "2"])]) "{}")
  = Returned "http://localhost/things?a=1&a=2"
  /\ Reference.href <$>
       requestUrl None
         (Reference.thingsRequest "/things?x=1" (QueryObject [("x", QString "1")]) "{}")
     = Returned "http://localhost/things?x=1&x=1"
  /\ URL_searchParams <$>
       requestUrl None
         (Reference.thingsRequest "/things?x=1" (QueryObject [("x", QString "1")]) "{}")
     = Returned [("x", "1"); ("x", "1")].
Proof. repeat split; reflexivity. Qed.

(** The sibling branch, [req.query] a string, replaces the query. *)
Example requestUrl_string_query_replaces :
  Reference.href <$>
    requestUrl None (Reference.thingsRequest "/things?x=1" (QueryText "x=1") "{}")
  = Returned "http://localhost/things?x=1".
Proof. reflexivity. Qed.

(** A [GET] request never becomes a generic request: the request stream
    is passed as its body, which [Request] refuses. *)
Example toFetchRequest_get_refused :
  toFetchRequest None
    (mkExpressRequest "/things" "http" "localhost" (QueryObject []) "GET" [] "")
  = Thrown (TypeError "Request with GET/HEAD method cannot have body").
Proof. reflexivity. Qed.

(** A response whose body was read before is refused when it is written:
    status and headers are set, the stream cannot be taken, and the error
    goes to [next]. *)
Example callback_used_response_refused :
  callback
    (mkAddRouteParams "POST" "/things"
       (fun _ => Returned (mkResponse 200 [("x-id", "1")] (Some "done") true)) None None)
    (Reference.thingsRequest "/things" (QueryObject []) "{}")
  = Returned (Refused 200 [("x-id", "1")] (TypeError "ReadableStream is locked")).
Proof. reflexivity. Qed.

(** ** The validation gate *)

Section GateProperties.
Context `{UrlApi} `{JsonApi} `{SchemaCapability}.

Lemma declared_schema (schemas : gmap string Schema) (key : string) (schema : Schema) :
  schemas !! key = Some schema -> declaresNoSchema schemas = false.
Proof.
  intros Hl. unfold declaresNoSchema. apply Nat.eqb_neq. intros Hs.
  apply map_size_empty_inv in Hs. subst schemas. rewrite lookup_empty in Hl.
  discriminate.
Qed.

(** C1: a response whose status code the contract's responses table does
    not declare makes [validateResponse] raise [Internal], status 500 and
    no 4xx, whatever its content type or body. *)
Theorem validateResponse_undeclared_status
    (contract : RouteContract) (response : Response) :
  responses contract !! response_status response = None ->
  exists e,
    validateResponse contract response = Thrown (Validation e)
    /\ kind e = Internal
    /\ status e = 500
    /\ ~ (400 <= status e < 500).
Proof.
  intros Hl. unfold validateResponse. rewrite Hl.
  eexists. split; [reflexivity|]. cbn. repeat split. lia.
Qed.

(** C2: when a body schema is declared and none is declared under the
    request's normalized content type, [validateBody] raises
    [UnsupportedMediaType], status 415, and does so whatever bytes the
    body holds. *)
Theorem validateBody_unmatched_content_type
    (contract : RouteContract) (request : Request) :
  declaresNoSchema (requestBody contract) = false ->
  requestBody contract
    !! normalizeContentType (Headers_get (request_headers request) "content-type") = None ->
  exists e,
    kind e = UnsupportedMediaType
    /\ status e = 415
    /\ forall bytes,
         validateBody contract
           {| request_url := request_url request;
              request_method := request_method request;
              request_headers := request_headers request;
              request_body := bytes |}
         = Thrown (Validation e).
Proof.
  intros Hd Hl. eexists. split; [|split]; [| |intros bytes].
  3: { unfold validateBody. cbn [request_headers request_body].
       rewrite Hd, Hl. reflexivity. }
  all: reflexivity.
Qed.


(** C4: a response [validateResponse] returns is returned again, as it
    is, by a second validation; it has the status and the headers of the
    response first given. *)
Theorem validateResponse_idempotent
    (contract : RouteContract) (response validated : Response) :
  validateResponse contract response = Returned validated ->
  validateResponse contract validated = Returned validated
  /\ response_status validated = response_status response
  /\ response_headers validated = response_headers response.
Proof.
  unfold validateResponse.
  destruct (responses contract !! response_status response) as [definition|] eqn:Hl;
    [|discriminate].
  destruct (declaresNoSchema (content definition)) eqn:Hd.
  - intros [= <-]. rewrite Hl, Hd. auto.
  - destruct (content definition !! _) as [schema|] eqn:Hs; [|discriminate].
    destruct (Response_text response) as [text|e] eqn:Ht; [|discriminate].
    cbn [mbind outcome_bind].
    destruct (JSON_parse text) as [value|e] eqn:Hp; [|discriminate].
    destruct (validate schema value) as [typed|found] eqn:Hv; [|discriminate].
    intros [= <-]. cbn [buffered response_status response_headers].
    rewrite Hl, Hd, Hs.
    unfold Response_text.
    cbn [buffered response_state response_body mbind outcome_bind].
    rewrite Hp, Hv. auto.
Qed.

End GateProperties.

Lemma validateResponse_undeclared_status_witness :
  exists e,
    validateResponse Reference.routeConfig
      (mkResponse 201 [("content-type", "application/json")] (Some "{}") false)
    = Thrown (Validation e)
    /\ kind e = Internal
    /\ status e = 500
    /\ ~ (400 <= status e < 500).
Proof.
  apply (validateResponse_undeclared_status Reference.routeConfig
           (mkResponse 201 [("content-type", "application/json")] (Some "{}") false)).
  reflexivity.
Defined.

Lemma validateBody_unmatched_content_type_witness :
  exists e,
    kind e = UnsupportedMediaType
    /\ status e = 415
    /\ forall bytes,
         validateBody Reference.routeConfig
           (Reference.thingRequest "text/plain; charset=utf-8" bytes)
         = Thrown (Validation e).
Proof.
  apply (validateBody_unmatched_content_type Reference.routeConfig
           (Reference.thingRequest "text/plain; charset=utf-8" None)); reflexivity.
Defined.



Lemma validateResponse_idempotent_witness :
  validateResponse Reference.routeConfig (Reference.Response_json Reference.goodThing)
  = Returned (Reference.Response_json Reference.goodThing)
  /\ validateResponse Reference.routeConfig (Reference.Response_json Reference.goodThing)
     = Returned (Reference.Response_json Reference.goodThing)
  /\ response_status (Reference.Response_json Reference.goodThing) = 200
  /\ response_headers (Reference.Response_json Reference.goodThing)
     = [("content-type", "application/json")].
Proof.
  split; [reflexivity|].
  apply (validateResponse_idempotent Reference.routeConfig
           (Reference.Response_json Reference.goodThing)
           (Reference.Response_json Reference.goodThing)).
  reflexivity.
Defined.

(** Scenario E of the specification: status 200 is declared with the
    thing schema, and a body that is not a thing is the server's fault. *)
Example validateResponse_contract_violation :
  exists e,
    validateResponse Reference.routeConfig
      (Reference.Response_json (JObject [("foo", JString "bar")]))
    = Thrown (Validation e)
    /\ status e = 500.
Proof. eexists. split; reflexivity. Qed.

(** * Further properties of the adapters *)

(** ** Text *)

Section TextFacts.

Lemma append_empty_r (s : string) : s ++ "" = s.
Proof.
  induction s as [|c s IH]; [reflexivity|].
  change (String c (s ++ "") = String c s). rewrite IH. reflexivity.
Qed.

Lemma append_associative (a b c : string) : (a ++ b) ++ c = a ++ (b ++ c).
Proof.
  induction a as [|x a IH]; [reflexivity|].
  change (String x ((a ++ b) ++ c) = String x (a ++ (b ++ c))). rewrite IH. reflexivity.
Qed.

Lemma length_append (a b : string) :
  String.length (a ++ b) = (String.length a + String.length b)%nat.
Proof.
  induction a as [|x a IH]; [reflexivity|].
  change (S (String.length (a ++ b)) = S (String.length a + String.length b)).
  rewrite IH. reflexivity.
Qed.

Lemma contains_append (c : ascii) (a b : string) :
  Text.contains c (a ++ b) = Text.contains c a || Text.contains c b.
Proof.
  induction a as [|x a IH]; [reflexivity|].
  change (Ascii.eqb c x || Text.contains c (a ++ b)
          = Ascii.eqb c x || Text.contains c a || Text.contains c b).
  rewrite IH, orb_assoc. reflexivity.
Qed.

Lemma lower_lower (c : ascii) : Text.lower (Text.lower c) = Text.lower c.
Proof. destruct c as [[] [] [] [] [] [] [] []]; reflexivity. Qed.

Lemma toLowerCase_idempotent (s : string) :
  Text.toLowerCase (Text.toLowerCase s) = Text.toLowerCase s.
Proof.
  unfold Text.toLowerCase. induction s as [|c s IH]; [reflexivity|].
  cbn [Text.map]. rewrite lower_lower, IH. reflexivity.
Qed.

End TextFacts.

(** ** More on rewriting path templates *)

Section PathRewriteMore.

Lemma spanName_unclosed (s : string) :
  Text.contains "}" s = false -> spanName s = (s, "").
Proof.
  induction s as [|c s IH]; intros Hn; [reflexivity|].
  cbn [Text.contains] in Hn. apply orb_false_elim in Hn as [Hc Hn].
  cbn [spanName]. rewrite (Ascii.eqb_sym c), Hc, (IH Hn). reflexivity.
Qed.

Lemma matchPlaceholder_unclosed (s : string) :
  Text.contains "}" s = false -> matchPlaceholder s = None.
Proof.
  destruct s as [|c s]; [reflexivity|]. intros Hn.
  cbn [Text.contains] in Hn. apply orb_false_elim in Hn as [_ Hn].
  rewrite matchPlaceholder_unfold, (spanName_unclosed s Hn).
  destruct (Ascii.eqb c "{"); [|reflexivity]. destruct s; reflexivity.
Qed.

Lemma expressPath_unclosed (s : string) :
  Text.contains "}" s = false -> expressPath s = s.
Proof.
  induction s as [|c s IH]; intros Hn; [reflexivity|].
  rewrite expressPath_copy by (apply matchPlaceholder_unclosed; exact Hn).
  cbn [Text.contains] in Hn. apply orb_false_elim in Hn as [_ Hn].
  rewrite (IH Hn). reflexivity.
Qed.

Lemma matchPlaceholder_length (s name rest : string) :
  matchPlaceholder s = Some (name, rest) ->
  String.length s = (String.length name + String.length rest + 2)%nat.
Proof.
  destruct s as [|c s]; [discriminate|].
  rewrite matchPlaceholder_unfold.
  destruct (Ascii.eqb c "{"); [|discriminate].
  destruct (spanName s) as [n r] eqn:E. apply spanName_length in E.
  destruct n as [|d n]; [discriminate|].
  destruct r as [|e r]; [discriminate|].
  destruct (Ascii.eqb e "}"); [|discriminate].
  intros [= <- <-]. cbn [String.length] in *. lia.
Qed.

Lemma expressPath_length_bound (n : nat) :
  forall s : string,
    (String.length s <= n)%nat ->
    (String.length (expressPath s) <= String.length s)%nat.
Proof.
  induction n as [|n IH]; intros s Hn.
  - destruct s; [apply Nat.le_refl|cbn [String.length] in Hn; lia].
  - destruct (matchPlaceholder s) as [[name rest]|] eqn:E.
    + pose proof (matchPlaceholder_length _ _ _ E) as Hl.
      rewrite (expressPath_match _ _ _ E), !length_append.
      specialize (IH rest). cbn [String.length]. lia.
    + destruct s as [|c s]; [apply Nat.le_refl|].
      rewrite (expressPath_copy _ _ E). cbn [String.length] in *.
      specialize (IH s). lia.
Qed.

End PathRewriteMore.

(** X1: a path without an opening brace, or without a closing brace, is
    registered as it is written. *)
Theorem expressPath_without_braces (path : string) :
  Text.contains "{" path = false \/ Text.contains "}" path = false ->
  expressPath path = path.
Proof.
  intros [Hopen|Hclose].
  - rewrite <- (append_empty_r path) at 1.
    rewrite expressPath_literal by exact Hopen. apply append_empty_r.
  - apply expressPath_unclosed, Hclose.
Qed.

Lemma expressPath_without_braces_witness :
  (Text.contains "{" "/things/}/all" = false \/ Text.contains "}" "/things/}/all" = false)
  /\ expressPath "/things/}/all" = "/things/}/all".
Proof.
  split; [left; reflexivity|].
  apply (expressPath_without_braces "/things/}/all"). left. reflexivity.
Defined.

(** X2: the Express path is never longer than the path pattern. *)
Theorem expressPath_never_longer (path : string) :
  (String.length (expressPath path) <= String.length path)%nat.
Proof. apply (expressPath_length_bound (String.length path)), Nat.le_refl. Qed.

(** X3: a well-formed template is rewritten the same way whatever text
    follows it, and the text that follows is rewritten on its own. *)
Theorem expressPath_template_prefix (segments : list Segment) (rest : string) :
  forallb wellFormed segments = true ->
  expressPath (braces segments ++ rest) = colons segments ++ expressPath rest.
Proof.
  induction segments as [|[text|name] segments IH]; cbn [forallb braces colons].
  - reflexivity.
  - intros [Hw Hr]%andb_prop. apply negb_true_iff in Hw.
    rewrite !append_associative, expressPath_literal, IH by assumption. reflexivity.
  - intros [[Hne Hn]%andb_prop Hr]%andb_prop.
    apply negb_true_iff in Hne, Hn. apply String.eqb_neq in Hne.
    rewrite !append_associative.
    rewrite (expressPath_match _ name (braces segments ++ rest)).
    + rewrite IH by assumption. reflexivity.
    + apply matchPlaceholder_braces; assumption.
Qed.

Lemma expressPath_template_prefix_witness :
  forallb wellFormed [Literal "/things/"; Placeholder "thingId"] = true
  /\ expressPath "/things/{thingId}/parts/{" = "/things/:thingId/parts/{".
Proof.
  split; [reflexivity|].
  apply (expressPath_template_prefix [Literal "/things/"; Placeholder "thingId"] "/parts/{").
  reflexivity.
Defined.

(** X4: the rewrite does not mark where a name ends: a placeholder
    followed by brace-free text and a placeholder whose name runs on
    through that text are registered under the same Express path. *)
Theorem expressPath_name_boundary (name text rest : string) :
  name <> "" ->
  Text.contains "}" name = false ->
  Text.contains "{" text = false ->
  Text.contains "}" text = false ->
  expressPath ("{" ++ name ++ "}" ++ text ++ rest)
  = expressPath ("{" ++ (name ++ text) ++ "}" ++ rest).
Proof.
  intros Hne Hname Hopen Hclose.
  rewrite (expressPath_match _ name (text ++ rest))
    by (apply matchPlaceholder_braces; assumption).
  rewrite (expressPath_match ("{" ++ (name ++ text) ++ "}" ++ rest) (name ++ text) rest).
  - rewrite expressPath_literal by assumption.
    rewrite append_associative. reflexivity.
  - apply matchPlaceholder_braces.
    + destruct name; [contradiction|discriminate].
    + rewrite contains_append, Hname, Hclose. reflexivity.
Qed.

Lemma expressPath_name_boundary_witness :
  "id" <> ""
  /\ expressPath "{id}s" = expressPath "{ids}".
Proof.
  split; [discriminate|].
  apply (expressPath_name_boundary "id" "s" ""); [discriminate|reflexivity..].
Defined.

(** ** More on the Express routes *)

Section ExpressRoutes.
Context `{UrlApi} `{JsonApi}.

(** The route [addRoute] registers for an endpoint. *)
Lemma addRoute_route (params : AddRouteParams) (router : Router) :
  addRoute params router =
  app router [mkRoute (Text.toLowerCase (method params))
                (expressPath (pathPattern params)) (callback params)].
Proof. reflexivity. Qed.

Lemma addRoutes_fold (endpoints : list Endpoint) :
  forall router : Router,
    foldl (fun r endpoint => addRoute (endpointParams endpoint) r) router endpoints
    = app router
        (List.map (fun endpoint =>
                     mkRoute (Text.toLowerCase (endpoint_method endpoint))
                       (expressPath (endpoint_pathPattern endpoint))
                       (callback (endpointParams endpoint)))
           endpoints).
Proof.
  induction endpoints as [|endpoint endpoints IH]; intros router.
  - cbn [foldl List.map]. rewrite app_nil_r. reflexivity.
  - cbn [foldl List.map]. rewrite IH, addRoute_route, <- app_assoc. reflexivity.
Qed.

Lemma Request_new_stream (url : URL) (init : RequestInit) (request : Request)
    (content : string) :
  init_body init = Some (BodyStream content) ->
  Request_new url init = Returned request ->
  bodyless_method (request_method request) = false
  /\ request_url request = url
  /\ request_method request = normalize_method (init_method init)
  /\ request_headers request = init_headers init
  /\ request_body request = Some content.
Proof.
  intros Hb. unfold Request_new. rewrite Hb.
  destruct (URL_credentials url); [discriminate|].
  destruct (negb _ || _); [discriminate|].
  destruct (bodyless_method _) eqn:Hm; [discriminate|].
  intros [= <-]. cbn. auto.
Qed.

Lemma requestUrl_fold (port : option Z) (req : ExpressRequest)
    (entries : list (string * QueryValue)) :
  req_query req = QueryObject entries ->
  requestUrl port req =
  url ← URL_new (req_url req) (req_protocol req ++ "://" ++ req_hostname req);
  Returned
    (foldl (fun u kv => URL_searchParams_append u (fst kv) (snd kv))
       match port with
       | Some p => URL_set_port url (Text.ofZ p)
       | None => url
       end
       (stringEntries entries)).
Proof.
  intros Hq. unfold requestUrl. rewrite Hq.
  destruct (URL_new _ _) as [url|e]; [|reflexivity]. cbn [mbind outcome_bind].
  f_equal. generalize (match port with
                       | Some p => URL_set_port url (Text.ofZ p)
                       | None => url
                       end). clear.
  induction entries as [|[key value] entries IH]; intros u; [reflexivity|].
  destruct value; cbn; apply IH.
Qed.

Lemma stringEntries_strings (entries : list (string * QueryValue)) :
  stringEntries (List.map (fun kv => (fst kv, QString (snd kv))) (stringEntries entries))
  = stringEntries entries.
Proof.
  induction entries as [|[key value] entries IH]; [reflexivity|].
  destruct value as [s|items|fields|]; try exact IH.
  change (stringEntries ((key, QString s) :: entries))
    with ((key, s) :: stringEntries entries).
  cbn [List.map fst snd].
  change (stringEntries ((key, QString s) :: ?l)) with ((key, s) :: stringEntries l).
  rewrite IH. reflexivity.
Qed.

End ExpressRoutes.

(** X5: [addRoutes] registers one route per imported endpoint, after the
    routes the router already has and in the order of the endpoints;
    each under its lower-cased method and its rewritten path. *)
Theorem addRoutes_registers_in_order `{UrlApi} `{JsonApi}
    (importEndpoints : string -> Outcome (list Endpoint))
    (router : Router) (routeDir : string) (endpoints : list Endpoint) :
  importEndpoints routeDir = Returned endpoints ->
  addRoutes importEndpoints router routeDir =
  Returned
    (app router
       (List.map (fun endpoint =>
                    mkRoute (Text.toLowerCase (endpoint_method endpoint))
                      (expressPath (endpoint_pathPattern endpoint))
                      (callback (endpointParams endpoint)))
          endpoints)).
Proof.
  intros Hi. unfold addRoutes. rewrite Hi. cbn [mbind outcome_bind].
  rewrite addRoutes_fold. reflexivity.
Qed.

Lemma addRoutes_registers_in_order_witness :
  List.map (fun route => (route_method route, route_path route)) <$>
    addRoutes
      (fun _ => Returned [mkEndpoint "GET" "/things" Reference.thingHandler;
                          mkEndpoint "POST" "/things/{thingId}" Reference.thingHandler])
      [] "routes"
  = Returned [("get", "/things"); ("post", "/things/:thingId")].
Proof.
  rewrite (addRoutes_registers_in_order
             (fun _ => Returned [mkEndpoint "GET" "/things" Reference.thingHandler;
                                 mkEndpoint "POST" "/things/{thingId}" Reference.thingHandler])
             [] "routes"
             [mkEndpoint "GET" "/things" Reference.thingHandler;
              mkEndpoint "POST" "/things/{thingId}" Reference.thingHandler]);
    reflexivity.
Defined.

(** X6: a request whose method is [GET] or [HEAD], in any letter case,
    never reaches the handler: the callback passes the request stream as
    body, [Request] refuses it, and the callback throws whatever the
    route's handler is. *)
Theorem callback_refuses_bodyless_methods `{UrlApi} `{JsonApi}
    (params : AddRouteParams) (req : ExpressRequest) :
  bodyless_method (normalize_method (req_method req)) = true ->
  exists error, callback params req = Thrown error.
Proof.
  intros Hm. unfold callback, toFetchRequest.
  destruct (requestUrl (port params) req) as [url|e]; [|eauto].
  cbn [mbind outcome_bind].
  destruct (Headers_new (req_headers req)) as [headers|e]; [|eauto].
  cbn [mbind outcome_bind].
  unfold Request_new. cbn [init_method init_body].
  destruct (URL_credentials url); [eauto|].
  destruct (negb _ || _); [eauto|]. rewrite Hm. eauto.
Qed.

Lemma callback_refuses_bodyless_methods_witness :
  exists error,
    callback Reference.thingParams
      (mkExpressRequest "/things/1" "http" "localhost" (QueryObject []) "get" [] "")
    = Thrown error.
Proof.
  apply (callback_refuses_bodyless_methods Reference.thingParams
           (mkExpressRequest "/things/1" "http" "localhost" (QueryObject []) "get" [] "")).
  reflexivity.
Defined.

(** X7: whenever the callback builds a generic request, its method is
    neither [GET] nor [HEAD], its URL is the one made of [req.url] and
    [req.query], its headers are those built from [req.headers] with
    nothing added, and its body is the content of the request stream. *)
Theorem toFetchRequest_built `{UrlApi}
    (port : option Z) (req : ExpressRequest) (request : Request) :
  toFetchRequest port req = Returned request ->
  bodyless_method (request_method request) = false
  /\ requestUrl port req = Returned (request_url request)
  /\ request_method request = normalize_method (req_method req)
  /\ Headers_new (req_headers req) = Returned (request_headers request)
  /\ request_body request = Some (req_stream req).
Proof.
  unfold toFetchRequest.
  destruct (requestUrl port req) as [url|e]; [|discriminate].
  cbn [mbind outcome_bind].
  destruct (Headers_new (req_headers req)) as [headers|e]; [|discriminate].
  cbn [mbind outcome_bind]. intros Hnew.
  apply (Request_new_stream _ _ _ (req_stream req)) in Hnew; [|reflexivity].
  destruct Hnew as (Hm & Hu & Hn & Hh & Hb). cbn in Hn, Hh.
  rewrite Hu, Hh. auto.
Qed.

Lemma toFetchRequest_built_witness :
  toFetchRequest None (Reference.thingsRequest "/things/1" (QueryObject []) "{}")
  = Returned (@mkRequest Reference.url (Reference.mkUrl "http" "localhost" "" "/things/1" "" "")
                "POST" [("content-type", "application/json")] (Some "{}"))
  /\ bodyless_method "POST" = false.
Proof.
  split; [reflexivity|].
  apply (toFetchRequest_built None
           (Reference.thingsRequest "/things/1" (QueryObject []) "{}")
           (@mkRequest Reference.url (Reference.mkUrl "http" "localhost" "" "/things/1" "" "")
              "POST" [("content-type", "application/json")] (Some "{}"))).
  reflexivity.
Defined.

(** X8: when [req.query] is an object, only its string-valued entries
    count: dropping every entry whose value is an array, a nested object
    or undefined leaves the URL of the generic request the same. *)
Theorem requestUrl_ignores_non_strings `{UrlApi}
    (port : option Z) (url protocol hostname method stream : string)
    (headers : list (string * string)) (entries : list (string * QueryValue)) :
  requestUrl port
    (mkExpressRequest url protocol hostname (QueryObject entries) method headers stream)
  = requestUrl port
      (mkExpressRequest url protocol hostname
         (QueryObject (List.map (fun kv => (fst kv, QString (snd kv))) (stringEntries entries)))
         method headers stream).
Proof.
  rewrite (requestUrl_fold port _ entries) by reflexivity.
  rewrite (requestUrl_fold port _
             (List.map (fun kv => (fst kv, QString (snd kv))) (stringEntries entries)))
    by reflexivity.
  rewrite stringEntries_strings. reflexivity.
Qed.

(** ** More on the Lambda adapter *)

(** X9: when the handler answers with a response whose body can be read
    to the end (it is null, or its stream is unread, not locked and does
    not fail), the proxy handler returns that response's status, header
    entries and body text, not base64-encoded. *)
Theorem toProxyHandler_passes_response `{UrlApi} `{JsonApi}
    (fetchHandler : FetchHandler) (event : APIGatewayProxyEventV2)
    (request : Request) (response : Response) :
  toRequest event = Returned request ->
  fetchHandler request = Returned response ->
  bodyReadable response = true ->
  toProxyHandler fetchHandler event =
  Returned {| statusCode := response_status response;
              result_headers := fromEntries (Headers_entries (response_headers response));
              result_body := default "" (response_body response);
              result_isBase64Encoded := false |}.
Proof.
  intros Hreq Hres Hreadable. unfold toProxyHandler.
  rewrite Hreq. cbn [mbind outcome_bind]. rewrite Hres.
  apply toResult_resultOf, Hreadable.
Qed.

Lemma toProxyHandler_passes_response_witness :
  toProxyHandler (fun _ => Returned (Reference.Response_json Reference.goodThing))
    (Reference.thingEvent "GET" None false)
  = Returned {| statusCode := 200;
                result_headers := {[ "content-type" := "application/json" ]};
                result_body := Reference.stringify Reference.goodThing;
                result_isBase64Encoded := false |}.
Proof.
  refine (toProxyHandler_passes_response
            (fun _ => Returned (Reference.Response_json Reference.goodThing))
            (Reference.thingEvent "GET" None false)
            (@mkRequest Reference.url
               (Reference.mkUrl "https" "host.com" "" "/things/1" "" "")
               "GET" [("content-type", "application/json")] None)
            (Reference.Response_json Reference.goodThing) _ _ _); reflexivity.
Defined.

(** X10: when no request can be built from the event, the handler is not
    run: whatever the handler, the proxy handler returns the platform
    result of the error response made of what the construction threw. *)
Theorem toProxyHandler_request_failure `{UrlApi} `{JsonApi}
    (fetchHandler : FetchHandler) (event : APIGatewayProxyEventV2)
    (error : Exception) :
  toRequest event = Thrown error ->
  toProxyHandler fetchHandler event
  = Returned (resultOf (http_response (toHttpError error))).
Proof.
  intros Hreq. unfold toProxyHandler. rewrite Hreq. cbn [mbind outcome_bind].
  apply toResult_resultOf, toHttpError_fresh.
Qed.

Lemma toProxyHandler_request_failure_witness :
  toProxyHandler Reference.thingHandler
    (Reference.thingEvent "GET" (Some (Reference.stringify Reference.goodThing)) false)
  = Returned {| statusCode := 500;
                result_headers := {[ "content-type" := "application/json" ]};
                result_body :=
                  Reference.stringify
                    (JObject [("message", JString "Internal Server Error")]);
                result_isBase64Encoded := false |}.
Proof.
  refine (toProxyHandler_request_failure Reference.thingHandler
            (Reference.thingEvent "GET" (Some (Reference.stringify Reference.goodThing)) false)
            (TypeError "Request with GET/HEAD method cannot have body") _).
  reflexivity.
Defined.

(** X11: the proxy handler's own promise is rejected in one case only:
    the handler answered with a response whose body cannot be read to the
    end (it was read from, or is locked, or fails), and the rejection is
    the one of [response.text()].  The result of [toResult] is returned
    from inside [try] without being awaited, so its failure passes the
    [catch] clause; every other failure ends in a platform result. *)
Theorem toProxyHandler_rejects_only_unreadable_response `{UrlApi} `{JsonApi}
    (fetchHandler : FetchHandler) (event : APIGatewayProxyEventV2)
    (error : Exception) :
  toProxyHandler fetchHandler event = Thrown error ->
  exists request response,
    toRequest event = Returned request
    /\ fetchHandler request = Returned response
    /\ bodyReadable response = false
    /\ Response_text response = Thrown error.
Proof.
  unfold toProxyHandler.
  destruct (toRequest event) as [request|e] eqn:Hreq; cbn [mbind outcome_bind].
  - destruct (fetchHandler request) as [response|e] eqn:Hres.
    + destruct (bodyReadable response) eqn:Hreadable.
      * rewrite (toResult_resultOf _ Hreadable). discriminate.
      * destruct (Response_text_unreadable _ Hreadable) as [e He].
        rewrite (toResult_thrown _ _ He). intros [= <-]. eauto 10.
    + rewrite (toResult_resultOf _ (toHttpError_fresh e)). discriminate.
  - rewrite (toResult_resultOf _ (toHttpError_fresh e)). discriminate.
Qed.

Lemma toProxyHandler_rejects_only_unreadable_response_witness :
  toProxyHandler (fun _ => Returned (mkResponse 200 [] (Some "done") true))
    (Reference.thingEvent "POST" None false)
  = Thrown (TypeError "Body is unusable")
  /\ exists request response,
       toRequest (Reference.thingEvent "POST" None false) = Returned request
       /\ (fun _ : Request => Returned (mkResponse 200 [] (Some "done") true)) request
          = Returned response
       /\ bodyReadable response = false
       /\ Response_text response = Thrown (TypeError "Body is unusable").
Proof.
  split; [reflexivity|].
  apply (toProxyHandler_rejects_only_unreadable_response
           (fun _ => Returned (mkResponse 200 [] (Some "done") true))
           (Reference.thingEvent "POST" None false)).
  reflexivity.
Defined.

(** A failing body stream rejects the proxy handler with its own reason. *)
Example toProxyHandler_failing_stream :
  toProxyHandler
    (fun _ => Returned (mkResponseWith 200 [] (Some "partial") (Failing (Error "reset"))))
    (Reference.thingEvent "POST" None false)
  = Thrown (Error "reset").
Proof. reflexivity. Qed.

(** ** The headers of a platform result *)

Section ResultHeaders.

Lemma fromEntries_fold (entries : list (string * string)) :
  forall (obj : gmap string string) (key : string),
    foldl (fun o kv => <[fst kv := snd kv]> o) obj entries !! key
    = match last (List.map snd (List.filter (fun kv => String.eqb (fst kv) key) entries)) with
      | Some v => Some v
      | None => obj !! key
      end.
Proof.
  induction entries as [|[k v] entries IH]; intros obj key; [reflexivity|].
  cbn [foldl List.filter fst snd]. rewrite IH.
  destruct (String.eqb_spec k key) as [->|Hne].
  - cbn [List.map snd]. rewrite last_cons, lookup_insert_eq.
    destruct (last _); reflexivity.
  - rewrite lookup_insert_ne by exact Hne. reflexivity.
Qed.

Lemma fromEntries_lookup (entries : list (string * string)) (key : string) :
  fromEntries entries !! key
  = last (List.map snd (List.filter (fun kv => String.eqb (fst kv) key) entries)).
Proof.
  unfold fromEntries. rewrite fromEntries_fold, lookup_empty.
  destruct (last _); reflexivity.
Qed.

Lemma values_under_name (name key : string) (values : list string) :
  List.map snd
    (List.filter (fun kv => String.eqb (fst kv) key) (List.map (fun v => (name, v)) values))
  = if String.eqb name key then values else [].
Proof.
  induction values as [|v values IH]; cbn [List.map List.filter fst].
  - destruct (String.eqb name key); reflexivity.
  - destruct (String.eqb name key) eqn:E; cbn [List.map snd]; rewrite IH; reflexivity.
Qed.

(** The values the entries of a header list hold under a key. *)
Lemma entries_values (h : Headers) (key : string) (names : list string) :
  List.map snd
    (List.filter (fun kv => String.eqb (fst kv) key)
       (flat_map
          (fun name =>
             if String.eqb name "set-cookie"
             then List.map (fun v => (name, v)) (Headers_values h name)
             else match Headers_get h name with
                  | Some v => [(name, v)]
                  | None => []
                  end)
          names))
  = flat_map
      (fun name =>
         if String.eqb name key
         then if String.eqb key "set-cookie" then Headers_values h key
              else match Headers_get h key with
                   | Some v => [v]
                   | None => []
                   end
         else [])
      names.
Proof.
  induction names as [|name names IH]; [reflexivity|].
  cbn [flat_map]. rewrite List.filter_app, List.map_app, IH. f_equal.
  destruct (String.eqb_spec name key) as [->|Hne].
  - destruct (String.eqb key "set-cookie").
    + rewrite values_under_name, String.eqb_refl. reflexivity.
    + destruct (Headers_get h key); cbn [List.filter List.map fst snd];
        rewrite ?String.eqb_refl; reflexivity.
  - apply String.eqb_neq in Hne.
    destruct (String.eqb name "set-cookie").
    + rewrite values_under_name, Hne. reflexivity.
    + destruct (Headers_get h name); cbn [List.filter List.map fst snd];
        rewrite ?Hne; reflexivity.
Qed.

Lemma last_under_name (key : string) (values : list string) (names : list string) :
  last (flat_map (fun name => if String.eqb name key then values else []) names)
  = if existsb (fun name => String.eqb name key) names then last values else None.
Proof.
  induction names as [|name names IH]; [reflexivity|].
  cbn [flat_map existsb]. rewrite last_app, IH.
  destruct (String.eqb name key); cbn [orb].
  - destruct (existsb _ names); destruct (last values); reflexivity.
  - destruct (existsb _ names); [destruct (last values)|]; reflexivity.
Qed.

Lemma insert_name_exists (key name : string) (names : list string) :
  existsb (fun n => String.eqb n key) (insert_name name names)
  = String.eqb name key || existsb (fun n => String.eqb n key) names.
Proof.
  induction names as [|n names IH]; [reflexivity|].
  cbn [insert_name]. destruct (String.compare name n) eqn:E.
  - apply String.compare_eq_iff in E. subst n. cbn [existsb].
    destruct (String.eqb name key); reflexivity.
  - reflexivity.
  - cbn [existsb]. rewrite IH.
    destruct (String.eqb n key), (String.eqb name key); reflexivity.
Qed.

Lemma sorted_names_exists (key : string) (h : Headers) :
  existsb (fun n => String.eqb n key) (sorted_names h)
  = existsb (fun kv => String.eqb (Text.toLowerCase (fst kv)) key) h.
Proof.
  unfold sorted_names. induction h as [|kv h IH]; [reflexivity|].
  cbn [List.map foldr existsb]. rewrite insert_name_exists, IH. reflexivity.
Qed.

Lemma Headers_values_absent (h : Headers) (name : string) :
  existsb (fun kv => same_name (fst kv) name) h = false ->
  Headers_values h name = [].
Proof.
  unfold Headers_values. induction h as [|kv h IH]; [reflexivity|].
  cbn [existsb List.filter]. intros [Hkv Hh]%orb_false_elim.
  rewrite Hkv. apply IH, Hh.
Qed.

Lemma Headers_values_lower (h : Headers) (name : string) :
  Headers_values h (Text.toLowerCase name) = Headers_values h name.
Proof.
  unfold Headers_values, same_name. rewrite toLowerCase_idempotent. reflexivity.
Qed.

Lemma Headers_get_lower (h : Headers) (name : string) :
  Headers_get h (Text.toLowerCase name) = Headers_get h name.
Proof. unfold Headers_get. rewrite Headers_values_lower. reflexivity. Qed.

(** What the object made of a header list's entries holds under a key. *)
Lemma entries_object_lookup (h : Headers) (key : string) :
  fromEntries (Headers_entries h) !! key
  = if existsb (fun kv => String.eqb (Text.toLowerCase (fst kv)) key) h
    then last (if String.eqb key "set-cookie" then Headers_values h key
               else match Headers_get h key with
                    | Some v => [v]
                    | None => []
                    end)
    else None.
Proof.
  rewrite fromEntries_lookup. unfold Headers_entries.
  rewrite entries_values, last_under_name, sorted_names_exists. reflexivity.
Qed.

Lemma toResult_headers (response : Response)
    (result : APIGatewayProxyStructuredResultV2) :
  toResult response = Returned result ->
  result_headers result = fromEntries (Headers_entries (response_headers response)).
Proof.
  unfold toResult. destruct (Response_text response); [|discriminate].
  intros [= <-]. reflexivity.
Qed.

End ResultHeaders.

(** X12: in a returned platform result, the headers object holds under
    the lower-cased name of a header what [headers.get] gives for that
    name on the response (the values under the name, joined), and nothing
    when the response has no such header; [set-cookie] apart. *)
Theorem toResult_header_lookup (response : Response)
    (result : APIGatewayProxyStructuredResultV2) (name : string) :
  toResult response = Returned result ->
  Text.toLowerCase name <> "set-cookie" ->
  result_headers result !! Text.toLowerCase name
  = Headers_get (response_headers response) name.
Proof.
  intros Hr Hname. rewrite (toResult_headers _ _ Hr), entries_object_lookup.
  apply String.eqb_neq in Hname. rewrite Hname, Headers_get_lower.
  destruct (existsb _ _) eqn:Hex.
  - destruct (Headers_get _ name); reflexivity.
  - unfold Headers_get. rewrite Headers_values_absent; [reflexivity|].
    exact Hex.
Qed.

Lemma toResult_header_lookup_witness :
  toResult
    (mkResponse 200 [("Accept", "text/html"); ("accept", "text/plain")] None false)
  = Returned
      {| statusCode := 200;
         result_headers := {[ "accept" := "text/html, text/plain" ]};
         result_body := "";
         result_isBase64Encoded := false |}
  /\ ({[ "accept" := "text/html, text/plain" ]} : gmap string string) !! "accept"
     = Some "text/html, text/plain".
Proof.
  split; [reflexivity|].
  refine (toResult_header_lookup
            (mkResponse 200 [("Accept", "text/html"); ("accept", "text/plain")] None false)
            {| statusCode := 200;
               result_headers := {[ "accept" := "text/html, text/plain" ]};
               result_body := "";
               result_isBase64Encoded := false |}
            "ACCEPT" _ _); [reflexivity|discriminate].
Defined.

(** X13: of several [set-cookie] headers of the response, the headers
    object of the platform result keeps the last one only. *)
Theorem toResult_keeps_last_cookie (response : Response)
    (result : APIGatewayProxyStructuredResultV2) :
  toResult response = Returned result ->
  result_headers result !! "set-cookie"
  = last (Headers_values (response_headers response) "set-cookie").
Proof.
  intros Hr. rewrite (toResult_headers _ _ Hr), entries_object_lookup.
  cbn [String.eqb Ascii.eqb Bool.eqb andb].
  destruct (existsb _ _) eqn:Hex; [reflexivity|].
  rewrite Headers_values_absent; [reflexivity|].
  exact Hex.
Qed.

Lemma toResult_keeps_last_cookie_witness :
  toResult (mkResponse 200 [("Set-Cookie", "a=1"); ("Set-Cookie", "b=2")] None false)
  = Returned
      {| statusCode := 200;
         result_headers := {[ "set-cookie" := "b=2" ]};
         result_body := "";
         result_isBase64Encoded := false |}
  /\ ({[ "set-cookie" := "b=2" ]} : gmap string string) !! "set-cookie" = Some "b=2".
Proof.
  split; [reflexivity|].
  refine (toResult_keeps_last_cookie
            (mkResponse 200 [("Set-Cookie", "a=1"); ("Set-Cookie", "b=2")] None false)
            {| statusCode := 200;
               result_headers := {[ "set-cookie" := "b=2" ]};
               result_body := "";
               result_isBase64Encoded := false |} _).
  reflexivity.
Defined.

(** X14: the keys of the headers object of a platform result are
    lower-cased: a name that holds an upper-case letter is not a key. *)
Theorem toResult_header_keys_lower_case (response : Response)
    (result : APIGatewayProxyStructuredResultV2) (name : string) :
  toResult response = Returned result ->
  Text.toLowerCase name <> name ->
  result_headers result !! name = None.
Proof.
  intros Hr Hname. rewrite (toResult_headers _ _ Hr), entries_object_lookup.
  destruct (existsb _ _) eqn:Hex; [|reflexivity].
  exfalso. apply existsb_exists in Hex as (kv & _ & Heq).
  apply String.eqb_eq in Heq. apply Hname.
  rewrite <- Heq. apply toLowerCase_idempotent.
Qed.

Lemma toResult_header_keys_lower_case_witness :
  toResult (Reference.Response_json Reference.goodThing)
  = Returned (resultOf (Reference.Response_json Reference.goodThing))
  /\ result_headers (resultOf (Reference.Response_json Reference.goodThing))
     !! "Content-Type" = None.
Proof.
  split; [reflexivity|].
  refine (toResult_header_keys_lower_case
            (Reference.Response_json Reference.goodThing)
            (resultOf (Reference.Response_json Reference.goodThing))
            "Content-Type" _ _); [reflexivity|discriminate].
Defined.

(** ** The headers of the request built from an event *)

Section RequestHeaders.

Lemma Headers_new_thrown (init : list (string * string)) (e : Exception) :
  foldl (fun acc kv => h ← acc; Headers_append h (fst kv) (snd kv)) (Thrown e) init
  = Thrown e.
Proof. induction init as [|kv init IH]; [reflexivity|]. cbn [foldl]. exact IH. Qed.

Lemma Headers_has_app (h : Headers) (k v name : string) :
  Headers_has (app h [(k, v)]) name = Headers_has h name || same_name k name.
Proof.
  unfold Headers_has. rewrite existsb_app. cbn [existsb fst].
  rewrite orb_false_r. reflexivity.
Qed.

Lemma Headers_new_fold_has (name : string) (init : list (string * string)) :
  forall acc h : Headers,
    foldl (fun a kv => x ← a; Headers_append x (fst kv) (snd kv)) (Returned acc) init
    = Returned h ->
    Headers_has h name
    = Headers_has acc name || existsb (fun kv => same_name (fst kv) name) init.
Proof.
  induction init as [|[k v] init IH]; intros acc h.
  - cbn [foldl existsb]. intros [= <-]. rewrite orb_false_r. reflexivity.
  - cbn [foldl mbind outcome_bind fst snd existsb]. unfold Headers_append.
    destruct (is_token k && _).
    + intros Hf. rewrite (IH _ _ Hf), Headers_has_app, orb_assoc. reflexivity.
    + rewrite Headers_new_thrown. discriminate.
Qed.

(** A header list has a name exactly when the record it was built from
    has it, letter case apart. *)
Lemma Headers_new_has (init : list (string * string)) (h : Headers) (name : string) :
  Headers_new init = Returned h ->
  Headers_has h name = existsb (fun kv => same_name (fst kv) name) init.
Proof. intros Hn. apply (Headers_new_fold_has name) in Hn. exact Hn. Qed.

Lemma Headers_get_app_absent (h : Headers) (name value : string) :
  Headers_has h name = false ->
  Headers_get (app h [(name, value)]) name = Some value.
Proof.
  intros Hh. unfold Headers_get, Headers_values.
  rewrite List.filter_app, List.map_app.
  fold (Headers_values h name). rewrite (Headers_values_absent h name Hh).
  cbn [List.filter fst app]. unfold same_name. rewrite String.eqb_refl. reflexivity.
Qed.

End RequestHeaders.

(** X15: when the event carries a body and none of its headers is a
    content type, the request the handler receives declares
    [text/plain;charset=UTF-8]: the body is handed over as text, and
    [Request] names the type of a text body that comes without one. *)
Theorem toRequest_default_content_type `{UrlApi}
    (event : APIGatewayProxyEventV2) (request : Request) (text : string) :
  toRequest event = Returned request ->
  body event = Some text ->
  existsb (fun kv => same_name (fst kv) "content-type") (AwsLambda.headers event) = false ->
  Headers_get (request_headers request) "content-type" = Some "text/plain;charset=UTF-8".
Proof.
  intros (url & headers & _ & Hh & Hnew)%toRequest_inv Hbody Hnone.
  rewrite Hbody in Hnew. unfold Request_new in Hnew.
  cbn [init_method init_headers init_body fmap option_fmap option_map] in Hnew.
  destruct (URL_credentials _); [discriminate|].
  destruct (negb _ || _); [discriminate|].
  destruct (bodyless_method _); [discriminate|].
  injection Hnew as <-. cbn [request_headers with_body_type].
  rewrite (Headers_new_has _ _ "content-type" Hh), Hnone.
  apply Headers_get_app_absent.
  rewrite (Headers_new_has _ _ "content-type" Hh). exact Hnone.
Qed.

Lemma toRequest_default_content_type_witness :
  Headers_get
    [("accept", "*/*"); ("content-type", "text/plain;charset=UTF-8")] "content-type"
  = Some "text/plain;charset=UTF-8".
Proof.
  refine (toRequest_default_content_type
            (mkEvent "2.0" "$default" "/things/1" "" None [("accept", "*/*")] None
               (requestContext (Reference.thingEvent "POST" None false))
               (Some "{}") None false None)
            (@mkRequest Reference.url
               (Reference.mkUrl "https" "host.com" "" "/things/1" "" "")
               "POST" [("accept", "*/*"); ("content-type", "text/plain;charset=UTF-8")]
               (Some "{}"))
            "{}" _ _ _); reflexivity.
Defined.

(** X16: [toRequest] returns a request only for an event the platform
    accepts: the URL and the headers were built, the method is a
    permitted token, and a body comes with a method other than [GET] and
    [HEAD]; the request is then made of exactly these parts. *)
Theorem toRequest_returns_only_accepted `{UrlApi}
    (event : APIGatewayProxyEventV2) (request : Request) :
  toRequest event = Returned request ->
  exists url headers,
    URL_new (rawPath event) ("https://" ++ domainName (requestContext event)) = Returned url
    /\ Headers_new (AwsLambda.headers event) = Returned headers
    /\ is_token (http_method (http (requestContext event))) = true
    /\ forbidden_method (http_method (http (requestContext event))) = false
    /\ (body event = None
        \/ bodyless_method (normalize_method (http_method (http (requestContext event))))
           = false)
    /\ request =
       {| request_url := URL_set_search url (rawQueryString event);
          request_method := normalize_method (http_method (http (requestContext event)));
          request_headers := with_body_type (BodyText <$> body event) headers;
          request_body := body event |}.
Proof.
  intros (url & headers & Hurl & Hheaders & Hnew)%toRequest_inv.
  exists url, headers. split; [exact Hurl|]. split; [exact Hheaders|].
  unfold Request_new in Hnew. cbn [init_method init_headers init_body] in Hnew.
  destruct (URL_credentials _); [discriminate|].
  destruct (is_token _); [|discriminate].
  destruct (forbidden_method _); [discriminate|].
  cbn [negb orb] in Hnew. split; [reflexivity|]. split; [reflexivity|].
  destruct (body event) as [text|]; cbn [fmap option_fmap option_map] in Hnew.
  - destruct (bodyless_method _); [discriminate|].
    injection Hnew as <-. split; [right|]; reflexivity.
  - injection Hnew as <-. split; [left|]; reflexivity.
Qed.

Lemma toRequest_returns_only_accepted_witness :
  exists url headers,
    URL_new "/things/1" "https://host.com" = Returned url
    /\ Headers_new [("content-type", "application/json")] = Returned headers
    /\ is_token "post" = true
    /\ forbidden_method "post" = false
    /\ (Some "{}" = None \/ bodyless_method (normalize_method "post") = false)
    /\ @mkRequest Reference.url
         (Reference.mkUrl "https" "host.com" "" "/things/1" "" "")
         "POST" [("content-type", "application/json")] (Some "{}")
       = {| request_url := URL_set_search url "";
            request_method := normalize_method "post";
            request_headers := with_body_type (Some (BodyText "{}")) headers;
            request_body := Some "{}" |}.
Proof.
  apply (toRequest_returns_only_accepted
           (Reference.thingEvent "post" (Some "{}") false)
           (@mkRequest Reference.url
              (Reference.mkUrl "https" "host.com" "" "/things/1" "" "")
              "POST" [("content-type", "application/json")] (Some "{}"))).
  reflexivity.
Defined.
